(** * Stadia controller bridge: report decoding and device session

    A shallow embedding of [stadia.go] (with the report accessors of
    [vigem.go] and the device interface of [hid.go]) and the properties of
    the report decoder, the device session and the presence supervisor. *)

From Stdlib Require Import ZArith NArith Lia List String Ascii DecimalString.
From Stdlib Require Import Strings.Byte.
From stdpp Require Import base list.

Local Open Scope Z_scope.

(** ** Machine integers

    Go's [byte] is [Byte.byte]; [int32], [int16] and [uint16] values are
    integers of [Z] together with the wrap-around of the conversion that
    produces them. *)

Definition byte_val (b : byte) : Z := Z.of_N (Byte.to_N b).

(** [byte(z)]: the low eight bits of [z]. *)
Definition byte_of (z : Z) : byte :=
  match Byte.of_N (Z.to_N (z mod 256)) with
  | Some b => b
  | None => x00
  end.

Definition wrap_signed (w z : Z) : Z := (z + 2 ^ (w - 1)) mod 2 ^ w - 2 ^ (w - 1).
Definition int32 (z : Z) : Z := wrap_signed 32 z.
Definition int16 (z : Z) : Z := wrap_signed 16 z.
Definition uint16 (z : Z) : Z := z mod 2 ^ 16.

(** [(x & mask) != 0] *)
Definition bit_set (x : byte) (mask : Z) : bool :=
  negb (Z.land (byte_val x) mask =? 0).

(** ** The emulated controller report ([vigem.go]) *)

(** The fields of the driver's [xusb_report] that the accessors use. *)
Record xusb_report := {
  wButtons : Z;
  bLeftTrigger : byte;
  bRightTrigger : byte;
  sThumbLX : Z;
  sThumbLY : Z;
  sThumbRX : Z;
  sThumbRY : Z
}.

Record Xbox360ControllerReport := {
  native : xusb_report;
  Capture : bool;
  Assistant : bool
}.

(** [Xbox360ControllerReport{}] *)
Definition zero_report : Xbox360ControllerReport :=
  {| native := {| wButtons := 0; bLeftTrigger := x00; bRightTrigger := x00;
                  sThumbLX := 0; sThumbLY := 0; sThumbRX := 0; sThumbRY := 0 |};
     Capture := false; Assistant := false |}.

(** Bits that correspond to the Xbox 360 controller buttons. *)
Definition Xbox360ControllerButtonUp : Z := 0.
Definition Xbox360ControllerButtonDown : Z := 1.
Definition Xbox360ControllerButtonLeft : Z := 2.
Definition Xbox360ControllerButtonRight : Z := 3.
Definition Xbox360ControllerButtonStart : Z := 4.
Definition Xbox360ControllerButtonBack : Z := 5.
Definition Xbox360ControllerButtonLeftThumb : Z := 6.
Definition Xbox360ControllerButtonRightThumb : Z := 7.
Definition Xbox360ControllerButtonLeftShoulder : Z := 8.
Definition Xbox360ControllerButtonRightShoulder : Z := 9.
Definition Xbox360ControllerButtonGuide : Z := 10.
Definition Xbox360ControllerButtonA : Z := 12.
Definition Xbox360ControllerButtonB : Z := 13.
Definition Xbox360ControllerButtonX : Z := 14.
Definition Xbox360ControllerButtonY : Z := 15.

Definition with_native (f : xusb_report -> xusb_report)
    (r : Xbox360ControllerReport) : Xbox360ControllerReport :=
  {| native := f (native r); Capture := Capture r; Assistant := Assistant r |}.

Definition GetButtons (r : Xbox360ControllerReport) : Z := uint16 (wButtons (native r)).

(** [r.native.wButtons |= 1 << shiftBy], the shift taken in [uint16]. *)
Definition SetButton (shiftBy : Z) : Xbox360ControllerReport -> Xbox360ControllerReport :=
  with_native (fun n =>
    {| wButtons := Z.lor (wButtons n) (uint16 (Z.shiftl 1 shiftBy));
       bLeftTrigger := bLeftTrigger n; bRightTrigger := bRightTrigger n;
       sThumbLX := sThumbLX n; sThumbLY := sThumbLY n;
       sThumbRX := sThumbRX n; sThumbRY := sThumbRY n |}).

Definition MaybeSetButton (shiftBy : Z) (isSet : bool)
    (r : Xbox360ControllerReport) : Xbox360ControllerReport :=
  if isSet then SetButton shiftBy r else r.

Definition GetLeftTrigger (r : Xbox360ControllerReport) : byte := bLeftTrigger (native r).
Definition GetRightTrigger (r : Xbox360ControllerReport) : byte := bRightTrigger (native r).

Definition SetLeftTrigger (value : byte) : Xbox360ControllerReport -> Xbox360ControllerReport :=
  with_native (fun n =>
    {| wButtons := wButtons n;
       bLeftTrigger := value; bRightTrigger := bRightTrigger n;
       sThumbLX := sThumbLX n; sThumbLY := sThumbLY n;
       sThumbRX := sThumbRX n; sThumbRY := sThumbRY n |}).

Definition SetRightTrigger (value : byte) : Xbox360ControllerReport -> Xbox360ControllerReport :=
  with_native (fun n =>
    {| wButtons := wButtons n;
       bLeftTrigger := bLeftTrigger n; bRightTrigger := value;
       sThumbLX := sThumbLX n; sThumbLY := sThumbLY n;
       sThumbRX := sThumbRX n; sThumbRY := sThumbRY n |}).

Definition GetLeftThumb (r : Xbox360ControllerReport) : Z * Z :=
  (int16 (sThumbLX (native r)), int16 (sThumbLY (native r))).
Definition GetRightThumb (r : Xbox360ControllerReport) : Z * Z :=
  (int16 (sThumbRX (native r)), int16 (sThumbRY (native r))).

Definition SetLeftThumb (x y : Z) : Xbox360ControllerReport -> Xbox360ControllerReport :=
  with_native (fun n =>
    {| wButtons := wButtons n;
       bLeftTrigger := bLeftTrigger n; bRightTrigger := bRightTrigger n;
       sThumbLX := int16 x; sThumbLY := int16 y;
       sThumbRX := sThumbRX n; sThumbRY := sThumbRY n |}).

Definition SetRightThumb (x y : Z) : Xbox360ControllerReport -> Xbox360ControllerReport :=
  with_native (fun n =>
    {| wButtons := wButtons n;
       bLeftTrigger := bLeftTrigger n; bRightTrigger := bRightTrigger n;
       sThumbLX := sThumbLX n; sThumbLY := sThumbLY n;
       sThumbRX := int16 x; sThumbRY := int16 y |}).

(** Whether the button at bit [btn] is pressed in the report. *)
Definition pressed (btn : Z) (r : Xbox360ControllerReport) : bool :=
  Z.testbit (GetButtons r) btn.

(** ** Errors

    [RetryError] is the package-level sentinel of [stadia.go]; the other
    errors are compared by what they carry. *)
Inductive error :=
| RetryError
| ErrorMessage (msg : string)
| PlatformError (errno : Z).

(** ** [encoding/base64], standard encoding with padding

    The alphabet and the grouping of RFC 4648, section 4: three bytes give
    four characters of six bits each; one or two trailing bytes give two or
    three characters followed by [=] padding. *)
Module base64.

Definition encodeStd : string :=
  "ABCDEFGHIJKLMNOPQRSTUVWXYZabcdefghijklmnopqrstuvwxyz0123456789+/".

Definition sextet_char (n : N) : ascii :=
  match String.get (N.to_nat n) encodeStd with
  | Some c => c
  | None => "="%char
  end.

Fixpoint EncodeToString (src : list byte) : string :=
  match src with
  | [] => EmptyString
  | [a] =>
      let val := (Byte.to_N a * 65536)%N in
      String (sextet_char (val / 262144 mod 64)%N)
        (String (sextet_char (val / 4096 mod 64)%N) "==")
  | [a; b] =>
      let val := (Byte.to_N a * 65536 + Byte.to_N b * 256)%N in
      String (sextet_char (val / 262144 mod 64)%N)
        (String (sextet_char (val / 4096 mod 64)%N)
          (String (sextet_char (val / 64 mod 64)%N) "="))
  | a :: b :: c :: rest =>
      let val := (Byte.to_N a * 65536 + Byte.to_N b * 256 + Byte.to_N c)%N in
      String (sextet_char (val / 262144 mod 64)%N)
        (String (sextet_char (val / 4096 mod 64)%N)
          (String (sextet_char (val / 64 mod 64)%N)
            (String (sextet_char (val mod 64)%N) (EncodeToString rest))))
  end.

(** The position of a character in the alphabet. *)
Fixpoint alphabet_index (c : ascii) (alphabet : string) (n : N) : option N :=
  match alphabet with
  | EmptyString => None
  | String c' rest =>
      if Ascii.eqb c c' then Some n else alphabet_index c rest (N.succ n)
  end.

Definition char_sextet (c : ascii) : option N := alphabet_index c encodeStd 0%N.

Definition byte_of_N (n : N) : byte :=
  match Byte.of_N (n mod 256)%N with
  | Some b => b
  | None => x00
  end.

(** The inverse reading: four characters give back a 24-bit group; [=]
    padding marks a final group of one or two bytes. *)
Fixpoint DecodeString (s : string) : option (list byte) :=
  match s with
  | EmptyString => Some []
  | String c1 (String c2 (String c3 (String c4 rest))) =>
      match char_sextet c1, char_sextet c2 with
      | Some s1, Some s2 =>
          if Ascii.eqb c3 "=" then
            match rest with
            | EmptyString =>
                if Ascii.eqb c4 "=" then
                  let val := ((s1 * 64 + s2) * 4096)%N in
                  Some [byte_of_N (val / 65536)]
                else None
            | String _ _ => None
            end
          else
            match char_sextet c3 with
            | Some s3 =>
                if Ascii.eqb c4 "=" then
                  match rest with
                  | EmptyString =>
                      let val := (((s1 * 64 + s2) * 64 + s3) * 64)%N in
                      Some [byte_of_N (val / 65536); byte_of_N (val / 256)]
                  | String _ _ => None
                  end
                else
                  match char_sextet c4 with
                  | Some s4 =>
                      let val := (((s1 * 64 + s2) * 64 + s3) * 64 + s4)%N in
                      option_map
                        (fun tl => byte_of_N (val / 65536) :: byte_of_N (val / 256)
                                     :: byte_of_N val :: tl)
                        (DecodeString rest)
                  | None => None
                  end
            | None => None
            end
      | _, _ => None
      end
  | _ => None
  end.

End base64.

(** ** The report decoder ([ParseReport])

    [ParseReport] reads and writes the caller's buffer and fills the
    caller's report. Both are threaded as state; an index outside the buffer
    is a run-time panic. *)
Record parse_state := {
  data : list byte;
  report : Xbox360ControllerReport
}.

Inductive outcome (A : Type) :=
| Done (a : A) (s : parse_state)
| Panic.
Arguments Done {A} a s.
Arguments Panic {A}.

Definition M (A : Type) : Type := parse_state -> outcome A.

Definition ret {A} (a : A) : M A := fun s => Done a s.

Definition bind {A B} (m : M A) (k : A -> M B) : M B :=
  fun s => match m s with
           | Done a s' => k a s'
           | Panic => Panic
           end.

Declare Scope go_scope.
Delimit Scope go_scope with go.
Notation "x <- m ;; k" := (bind m (fun x => k))
  (at level 20, m at level 99, k at level 200, only parsing) : go_scope.
Notation "m ;; k" := (bind m (fun _ => k))
  (at level 100, k at level 200, only parsing, right associativity) : go_scope.

(** [len(data)] *)
Definition len : M Z := fun s => Done (Z.of_nat (length (data s))) s.

(** [data] as passed on to a callee that only reads it. *)
Definition whole : M (list byte) := fun s => Done (data s) s.

(** [data[i]] *)
Definition index (i : nat) : M byte :=
  fun s => match data s !! i with
           | Some v => Done v s
           | None => Panic
           end.

(** [data[i] = v] *)
Definition store (i : nat) (v : byte) : M unit :=
  fun s => match data s !! i with
           | Some _ => Done tt {| data := <[i:=v]> (data s); report := report s |}
           | None => Panic
           end.

(** A method call on [report]. *)
Definition on_report (f : Xbox360ControllerReport -> Xbox360ControllerReport) : M unit :=
  fun s => Done tt {| data := data s; report := f (report s) |}.

(** [for i := lo; i < lo + n; i++ { body }] *)
Fixpoint for_range (lo : nat) (n : nat) (body : nat -> M unit) : M unit :=
  match n with
  | O => ret tt
  | S n' => bind (body lo) (fun _ => for_range (S lo) n' body)
  end.

(** [value<<8 | ((value << 1) & 0b1111)] on [value := int32(byteValue)] *)
Definition widen (byteValue : byte) : Z :=
  let value := int32 (byte_val byteValue) in
  int32 (Z.lor (int32 (Z.shiftl value 8))
               (Z.land (int32 (Z.shiftl value 1)) 0xF)).

Definition convertAxisValue (byteValue : byte) : Z :=
  let value := widen byteValue in
  if value =? 0xfffe then 0xffff else value.

Local Open Scope go_scope.

(** Update common buttons. *)
Definition update_common_buttons (b c : byte) : M unit :=
  on_report (MaybeSetButton Xbox360ControllerButtonA (bit_set c 0x40));;
  on_report (MaybeSetButton Xbox360ControllerButtonB (bit_set c 0x20));;
  on_report (MaybeSetButton Xbox360ControllerButtonX (bit_set c 0x10));;
  on_report (MaybeSetButton Xbox360ControllerButtonY (bit_set c 0x08));;
  on_report (MaybeSetButton Xbox360ControllerButtonLeftShoulder (bit_set c 0x04));;
  on_report (MaybeSetButton Xbox360ControllerButtonRightShoulder (bit_set c 0x02));;
  on_report (MaybeSetButton Xbox360ControllerButtonLeftThumb (bit_set c 0x01));;
  on_report (MaybeSetButton Xbox360ControllerButtonRightThumb (bit_set b 0x80));;
  on_report (MaybeSetButton Xbox360ControllerButtonBack (bit_set b 0x40));;
  on_report (MaybeSetButton Xbox360ControllerButtonStart (bit_set b 0x20));;
  on_report (MaybeSetButton Xbox360ControllerButtonGuide (bit_set b 0x10));;
  on_report (fun r => {| native := native r; Capture := Capture r;
                         Assistant := bit_set b 0x02 |});;
  on_report (fun r => {| native := native r; Capture := bit_set b 0x01;
                         Assistant := Assistant r |}).

(** Update DPad buttons. *)
Definition update_dpad_buttons (a : byte) : M unit :=
  match byte_val a with
  | 0 => on_report (SetButton Xbox360ControllerButtonUp)
  | 1 => on_report (SetButton Xbox360ControllerButtonUp);;
         on_report (SetButton Xbox360ControllerButtonRight)
  | 2 => on_report (SetButton Xbox360ControllerButtonRight)
  | 3 => on_report (SetButton Xbox360ControllerButtonRight);;
         on_report (SetButton Xbox360ControllerButtonDown)
  | 4 => on_report (SetButton Xbox360ControllerButtonDown)
  | 5 => on_report (SetButton Xbox360ControllerButtonDown);;
         on_report (SetButton Xbox360ControllerButtonLeft)
  | 6 => on_report (SetButton Xbox360ControllerButtonLeft)
  | 7 => on_report (SetButton Xbox360ControllerButtonLeft);;
         on_report (SetButton Xbox360ControllerButtonUp)
  | _ => ret tt
  end.

(** Normalize axes values. *)
Definition normalize_axes : M unit :=
  for_range 4 4 (fun i =>
    lo <- index i;;
    if (byte_val lo <=? 0x7F) && (0x00 <? byte_val lo)
    then (v <- index i;; store i (byte_of (byte_val v - 1)))
    else ret tt).

(** Set axes values. *)
Definition set_axes : M unit :=
  d4 <- index 4;;
  let lThumbX := int32 (convertAxisValue d4 - 0x8000) in
  d5 <- index 5;;
  let lThumbY := int32 (int32 (- convertAxisValue d5) + 0x7fff) in
  d6 <- index 6;;
  let rThumbX := int32 (convertAxisValue d6 - 0x8000) in
  d7 <- index 7;;
  let rThumbY := int32 (int32 (- convertAxisValue d7) + 0x7fff) in
  let lThumbY := if lThumbY =? -1 then 0 else lThumbY in
  let rThumbY := if rThumbY =? -1 then 0 else rThumbY in
  on_report (SetLeftThumb (int16 lThumbX) (int16 lThumbY));;
  on_report (SetRightThumb (int16 rThumbX) (int16 rThumbY)).

(** Set triggers. *)
Definition set_triggers : M unit :=
  t8 <- index 8;;
  on_report (SetLeftTrigger t8);;
  t9 <- index 9;;
  on_report (SetRightTrigger t9).

Definition ParseReport : M (option error) :=
  n <- len;;
  if n =? 0 then ret (Some (ErrorMessage "cannot parse empty report"))
  else
    tag <- index 0;;
    if Byte.eqb tag x03 && (10 <=? n) then
      (a <- index 1;;
       b <- index 2;;
       c <- index 3;;
       update_common_buttons b c;;
       update_dpad_buttons a;;
       normalize_axes;;
       set_axes;;
       set_triggers;;
       ret None)
    else
      (raw <- whole;;
       ret (Some (ErrorMessage
         ("unknown report format; raw report was " ++ base64.EncodeToString raw)%string))).

Local Close Scope go_scope.

(** [ParseReport(data, &report)] run on a buffer and a report. *)
Definition run_ParseReport (buf : list byte) (r : Xbox360ControllerReport)
    : outcome (option error) :=
  ParseReport {| data := buf; report := r |}.

(** ** What each block of [ParseReport] does to the report and the buffer *)

(** The bias step of the axis loop on one byte. *)
Definition bias (v : byte) : byte :=
  if (byte_val v <=? 0x7F) && (0x00 <? byte_val v)
  then byte_of (byte_val v - 1)
  else v.

Definition common_buttons_effect (b c : byte)
    (r : Xbox360ControllerReport) : Xbox360ControllerReport :=
  let r := MaybeSetButton Xbox360ControllerButtonA (bit_set c 0x40) r in
  let r := MaybeSetButton Xbox360ControllerButtonB (bit_set c 0x20) r in
  let r := MaybeSetButton Xbox360ControllerButtonX (bit_set c 0x10) r in
  let r := MaybeSetButton Xbox360ControllerButtonY (bit_set c 0x08) r in
  let r := MaybeSetButton Xbox360ControllerButtonLeftShoulder (bit_set c 0x04) r in
  let r := MaybeSetButton Xbox360ControllerButtonRightShoulder (bit_set c 0x02) r in
  let r := MaybeSetButton Xbox360ControllerButtonLeftThumb (bit_set c 0x01) r in
  let r := MaybeSetButton Xbox360ControllerButtonRightThumb (bit_set b 0x80) r in
  let r := MaybeSetButton Xbox360ControllerButtonBack (bit_set b 0x40) r in
  let r := MaybeSetButton Xbox360ControllerButtonStart (bit_set b 0x20) r in
  let r := MaybeSetButton Xbox360ControllerButtonGuide (bit_set b 0x10) r in
  {| native := native r; Capture := bit_set b 0x01; Assistant := bit_set b 0x02 |}.

Definition dpad_effect (a : byte)
    (r : Xbox360ControllerReport) : Xbox360ControllerReport :=
  match byte_val a with
  | 0 => SetButton Xbox360ControllerButtonUp r
  | 1 => SetButton Xbox360ControllerButtonRight (SetButton Xbox360ControllerButtonUp r)
  | 2 => SetButton Xbox360ControllerButtonRight r
  | 3 => SetButton Xbox360ControllerButtonDown (SetButton Xbox360ControllerButtonRight r)
  | 4 => SetButton Xbox360ControllerButtonDown r
  | 5 => SetButton Xbox360ControllerButtonLeft (SetButton Xbox360ControllerButtonDown r)
  | 6 => SetButton Xbox360ControllerButtonLeft r
  | 7 => SetButton Xbox360ControllerButtonUp (SetButton Xbox360ControllerButtonLeft r)
  | _ => r
  end.

(** The stick value computed from an (already biased) X byte and Y byte. *)
Definition thumb_x (d : byte) : Z := int16 (int32 (convertAxisValue d - 0x8000)).
Definition thumb_y (d : byte) : Z :=
  let y := int32 (int32 (- convertAxisValue d) + 0x7fff) in
  int16 (if y =? -1 then 0 else y).

Definition axes_effect (d4 d5 d6 d7 : byte)
    (r : Xbox360ControllerReport) : Xbox360ControllerReport :=
  SetRightThumb (thumb_x d6) (thumb_y d7) (SetLeftThumb (thumb_x d4) (thumb_y d5) r).

Definition triggers_effect (t8 t9 : byte)
    (r : Xbox360ControllerReport) : Xbox360ControllerReport :=
  SetRightTrigger t9 (SetLeftTrigger t8 r).

(** A report of the one recognized layout. *)
Definition recognized (buf : list byte) : Prop :=
  buf !! 0%nat = Some x03 /\ (10 <= length buf)%nat.

(** [ParseReport] on a fresh report, the way [GetReport] calls it: the
    decoded report when the call returns no error. *)
Definition decode (buf : list byte) : option Xbox360ControllerReport :=
  match run_ParseReport buf zero_report with
  | Done None s => Some (report s)
  | Done (Some _) _ => None
  | Panic => None
  end.

(** The error that [ParseReport] returns on a report it does not
    recognize. *)
Definition parse_error (buf : list byte) : error :=
  match buf with
  | [] => ErrorMessage "cannot parse empty report"
  | _ :: _ =>
      ErrorMessage ("unknown report format; raw report was "
                      ++ base64.EncodeToString buf)%string
  end.

(** ** The HID device ([hid.go]) *)

Record DeviceInfo := {
  Path : string;
  VendorID : Z;
  ProductID : Z;
  VersionNumber : Z;
  Manufacturer : string;
  Product : string;
  UsagePage : Z;
  Usage : Z;
  InputReportLength : Z;
  OutputReportLength : Z
}.

(** The open device: its handle, the channel that the read thread fills
    (oldest report first, capacity 30) and the read error. *)
Record winDevice := {
  info : DeviceInfo;
  handle_valid : bool;
  readCh : list (list byte);
  readCh_closed : bool;
  readErr : option error
}.

(** What the program does to the outside: device I/O and log lines, in
    order. *)
Inductive event :=
| IoEnumerate
| IoOpen (path : string)
| IoReceive (path : string) (buf : list byte)
| IoWrite (path : string) (buf : list byte)
| IoClose (path : string)
| LogCannotOpen (path : string) (e : error)
| LogOpened (path : string)
| LogUnableToRead (e : option error)
| LogWaiting
| LogUnableToParse (e : error).

Definition is_enumeration (ev : event) : bool :=
  match ev with
  | IoEnumerate => true
  | _ => false
  end.

(** [winDevice.Close] *)
Definition winDevice_Close (d : winDevice) : winDevice :=
  {| info := info d; handle_valid := false;
     readCh := readCh d; readCh_closed := readCh_closed d;
     readErr := Some (ErrorMessage "hid: device closed") |}.

(** [<-ReadCh()]: a queued report, or the closed channel, or nothing yet. *)
Inductive received :=
| Received (buf : list byte) (d : winDevice)
| ChannelClosed
| WouldBlock.

Definition receive (d : winDevice) : received :=
  match readCh d with
  | buf :: queue =>
      Received buf {| info := info d; handle_valid := handle_valid d;
                      readCh := queue; readCh_closed := readCh_closed d;
                      readErr := readErr d |}
  | [] => if readCh_closed d then ChannelClosed else WouldBlock
  end.

(** The read thread hands over a report: sent if the channel has room,
    dropped otherwise. *)
Definition readThread_send (buf : list byte) (d : winDevice) : winDevice :=
  if readCh_closed d then d
  else if (length (readCh d) <? 30)%nat
  then {| info := info d; handle_valid := handle_valid d;
          readCh := readCh d ++ [buf]; readCh_closed := false;
          readErr := readErr d |}
  else d.

(** The read thread stops on an error: it keeps the first error and closes
    the channel. *)
Definition readThread_fail (e : error) (d : winDevice) : winDevice :=
  if readCh_closed d then d
  else {| info := info d; handle_valid := handle_valid d;
          readCh := readCh d; readCh_closed := true;
          readErr := match readErr d with Some e0 => Some e0 | None => Some e end |}.

(** [winDevice.Write]: the output report, zero-padded or cut to the
    device's output length. *)
Definition output_report (d : winDevice) (buf : list byte) : list byte :=
  let outSize := Z.to_nat (uint16 (OutputReportLength (info d) + 1)) in
  if (length buf =? outSize)%nat then buf
  else take outSize (buf ++ replicate outSize x00).

(** ** The controller ([stadia.go]) *)

Definition stadiaControllerVid : Z := 0x18D1.
Definition stadiaControllerPid : Z := 0x9400.

Record StadiaController := {
  device : option winDevice;
  ticker_stopped : bool;
  err : option error
}.

(** The controller, the goroutine started by [NewStadiaController] (still
    in its loop or past its [break]) and what has happened so far. *)
Record world := {
  controller : StadiaController;
  scanning : bool;
  trace : list event
}.

(** What the platform answers during one scan. *)
Record platform := {
  Devices : list DeviceInfo + error;
  Open : DeviceInfo -> winDevice + error
}.

(** [NewStadiaController()] *)
Definition NewStadiaController : world :=
  {| controller := {| device := None; ticker_stopped := false; err := None |};
     scanning := true;
     trace := [] |}.

(** The inner loop of the scan over the enumerated devices. *)
Fixpoint scan_devices (p : platform) (devices : list DeviceInfo) (w : world) : world :=
  match devices with
  | [] => w
  | di :: rest =>
      if (VendorID di =? stadiaControllerVid) && (ProductID di =? stadiaControllerPid)
      then
        match Open p di with
        | inr e =>
            {| controller := controller w; scanning := scanning w;
               trace := trace w ++ [IoOpen (Path di); LogCannotOpen (Path di) e] |}
        | inl openDevice =>
            {| controller := {| device := Some openDevice;
                                ticker_stopped := ticker_stopped (controller w);
                                err := err (controller w) |};
               scanning := scanning w;
               trace := trace w ++ [IoOpen (Path di); LogOpened (Path di)] |}
        end
      else scan_devices p rest w
  end.

(** One firing of the ticker: the body of the goroutine's loop. *)
Definition tick (p : platform) (w : world) : world :=
  if negb (scanning w) || ticker_stopped (controller w) then w
  else
    match device (controller w), err (controller w) with
    | None, None =>
        let w' := {| controller := controller w; scanning := scanning w;
                     trace := trace w ++ [IoEnumerate] |} in
        match Devices p with
        | inr e =>
            {| controller := {| device := None;
                                ticker_stopped := ticker_stopped (controller w);
                                err := Some e |};
               scanning := false;
               trace := trace w' |}
        | inl devices => scan_devices p devices w'
        end
    | _, _ => w
    end.

(** [StadiaController.Close] *)
Definition Close (w : world) : world :=
  match device (controller w) with
  | None =>
      {| controller := {| device := None; ticker_stopped := true;
                          err := err (controller w) |};
         scanning := scanning w; trace := trace w |}
  | Some d =>
      {| controller := {| device := Some (winDevice_Close d); ticker_stopped := true;
                          err := err (controller w) |};
         scanning := scanning w;
         trace := trace w ++ [IoClose (Path (info d))] |}
  end.

(** [StadiaController.Vibrate]; [written] is what the device write
    answers. *)
Definition Vibrate (largeMotor smallMotor : byte) (written : option error)
    (w : world) : option error * world :=
  match device (controller w) with
  | None => (err (controller w), w)
  | Some d =>
      (written,
       {| controller := controller w; scanning := scanning w;
          trace := trace w ++
            [IoWrite (Path (info d))
               (output_report d [x05; largeMotor; largeMotor; smallMotor; smallMotor])] |})
  end.

(** A call of [GetReport]: it returns, waits on the channel, or panics. *)
Inductive GetReport_result :=
| Returned (r : Xbox360ControllerReport) (e : option error) (w : world)
| Blocked
| Panicked.

Definition GetReport (w : world) : GetReport_result :=
  match device (controller w) with
  | None =>
      Returned zero_report
        (Some (match err (controller w) with Some e => e | None => RetryError end)) w
  | Some d =>
      match receive d with
      | WouldBlock => Blocked
      | ChannelClosed =>
          Returned zero_report (Some RetryError)
            {| controller := {| device := None;
                                ticker_stopped := ticker_stopped (controller w);
                                err := err (controller w) |};
               scanning := scanning w;
               trace := trace w ++
                 [LogUnableToRead (readErr d); LogWaiting; IoClose (Path (info d))] |}
      | Received buf d' =>
          let w' := {| controller := {| device := Some d';
                                        ticker_stopped := ticker_stopped (controller w);
                                        err := err (controller w) |};
                       scanning := scanning w;
                       trace := trace w ++ [IoReceive (Path (info d)) buf] |} in
          match run_ParseReport buf zero_report with
          | Panic => Panicked
          | Done (Some e) s =>
              Returned (report s) (Some RetryError)
                {| controller := controller w'; scanning := scanning w';
                   trace := trace w' ++ [LogUnableToParse e] |}
          | Done None s => Returned (report s) None w'
          end
      end
  end.

(** What can happen next in a run: the ticker fires, the main loop reads,
    the emulator asks for a vibration, the device's read thread delivers a
    report or stops, the program closes the controller. *)
Inductive action :=
| Tick (p : platform)
| Read
| Rumble (largeMotor smallMotor : byte) (written : option error)
| Deliver (buf : list byte)
| ReadFail (e : error)
| Shutdown.

Definition on_device (f : winDevice -> winDevice) (w : world) : world :=
  match device (controller w) with
  | None => w
  | Some d =>
      {| controller := {| device := Some (f d);
                          ticker_stopped := ticker_stopped (controller w);
                          err := err (controller w) |};
         scanning := scanning w; trace := trace w |}
  end.

Definition step (a : action) (w : world) : world :=
  match a with
  | Tick p => tick p w
  | Read =>
      match GetReport w with
      | Returned _ _ w' => w'
      | Blocked | Panicked => w
      end
  | Rumble largeMotor smallMotor written => snd (Vibrate largeMotor smallMotor written w)
  | Deliver buf => on_device (readThread_send buf) w
  | ReadFail e => on_device (readThread_fail e) w
  | Shutdown => Close w
  end.

Fixpoint run (actions : list action) (w : world) : world :=
  match actions with
  | [] => w
  | a :: rest => run rest (step a w)
  end.

Definition is_tick (a : action) : bool :=
  match a with
  | Tick _ => true
  | _ => false
  end.

(** *** States of the session that the properties speak about *)

(** No device is installed while an enumeration fault is recorded. *)
Definition device_excludes_fault (w : world) : Prop :=
  device (controller w) = None \/ err (controller w) = None.

(** A recorded fault with no device and a stopped scan loop stays so. *)
Definition faulted (e : error) (w : world) : Prop :=
  device (controller w) = None /\ err (controller w) = Some e /\ scanning w = false.

(** With no device and no fault, nothing but a tick of the supervisor
    changes that, and nothing is done to any device meanwhile. *)
Definition waiting (w : world) : Prop :=
  device (controller w) = None /\ err (controller w) = None.

(** The number of device enumerations in a trace. *)
Fixpoint enumerations (t : list event) : nat :=
  match t with
  | [] => O
  | ev :: rest => ((if is_enumeration ev then 1 else 0) + enumerations rest)%nat
  end.

(** ** A sample platform: one Stadia controller, plugged in *)

Definition sample_info : DeviceInfo :=
  {| Path := "\\?\hid#vid_18d1&pid_9400"; VendorID := 0x18D1; ProductID := 0x9400;
     VersionNumber := 1; Manufacturer := "Google LLC"; Product := "Stadia Controller";
     UsagePage := 1; Usage := 5; InputReportLength := 10; OutputReportLength := 4 |}.

Definition sample_open (di : DeviceInfo) : winDevice + error :=
  inl {| info := di; handle_valid := true; readCh := []; readCh_closed := false;
         readErr := None |}.

Definition plugged_in : platform :=
  {| Devices := inl [sample_info]; Open := sample_open |}.

Definition enumeration_broken (e : error) : platform :=
  {| Devices := inr e; Open := sample_open |}.

(** ** The decoding rules as the specification words them *)

(** Bias correction: if [0 < v <= 0x7F], decrement [v] by 1. *)
Definition spec_bias (v : Z) : Z :=
  if (0 <? v) && (v <=? 0x7F) then v - 1 else v.

(** Expansion: [wide = (v << 8) | ((v << 1) & 0xF)], and [0xFFFE] becomes
    [0xFFFF]. *)
Definition spec_wide (v : Z) : Z :=
  let wide := Z.lor (Z.shiftl v 8) (Z.land (Z.shiftl v 1) 0xF) in
  if wide =? 0xFFFE then 0xFFFF else wide.

(** X axes: [wide - 0x8000]. *)
Definition spec_axis_x (v : Z) : Z := spec_wide (spec_bias v) - 0x8000.

(** Y axes: [-wide + 0x7FFF], and a value of exactly [-1] snaps to [0]. *)
Definition spec_axis_y (v : Z) : Z :=
  let y := - spec_wide (spec_bias v) + 0x7FFF in
  if y =? -1 then 0 else y.

(** The D-pad decode table: which of (Up, Right, Down, Left) a direction
    code sets. *)
Definition spec_dpad (code : Z) : bool * bool * bool * bool :=
  match code with
  | 0 => (true, false, false, false)
  | 1 => (true, true, false, false)
  | 2 => (false, true, false, false)
  | 3 => (false, true, true, false)
  | 4 => (false, false, true, false)
  | 5 => (false, false, true, true)
  | 6 => (false, false, false, true)
  | 7 => (true, false, false, true)
  | _ => (false, false, false, false)
  end.

Definition dpad_of (r : Xbox360ControllerReport) : bool * bool * bool * bool :=
  (pressed Xbox360ControllerButtonUp r, pressed Xbox360ControllerButtonRight r,
   pressed Xbox360ControllerButtonDown r, pressed Xbox360ControllerButtonLeft r).

(** ** The read thread and the platform layer ([hid.go]) *)

(** The device that [openDevice] builds around a fresh handle: no channel
    traffic yet and no read error. *)
Definition opened (di : DeviceInfo) : winDevice :=
  {| info := di; handle_valid := true; readCh := []; readCh_closed := false;
     readErr := None |}.

(** [DeviceInfo.Open]: what [CreateFile] answered (a valid handle, an
    invalid one, or an error) and the last error of the thread. *)
Inductive created :=
| CreateFailed (e : error)
| InvalidHandle
| ValidHandle.

Definition DeviceInfo_Open (os : created) (lastError : option error)
    (di : DeviceInfo) : winDevice + error :=
  match os with
  | CreateFailed e => inr e
  | InvalidHandle =>
      inr (match lastError with
           | Some e => e
           | None => ErrorMessage "unable to open device"
           end)
  | ValidHandle => inl (opened di)
  end.

(** [Devices]: the interfaces that the enumeration walks through, each with
    the details found for it, if any. The error is always nil. *)
Fixpoint hid_Devices (found : list (option DeviceInfo)) : list DeviceInfo + error :=
  match found with
  | [] => inl []
  | details :: rest =>
      match hid_Devices rest with
      | inl result =>
          inl (match details with
               | Some di => di :: result
               | None => result
               end)
      | inr e => inr e
      end
  end.

(** A platform that answers as [hid.go] does: the enumeration gives a list,
    and a device that opens is the one [openDevice] builds. *)
Definition hid_platform (p : platform) : Prop :=
  (exists devices, Devices p = inl devices)
  /\ forall di d, Open p di = inl d -> d = opened di.

Definition hid_action (a : action) : Prop :=
  match a with
  | Tick p => hid_platform p
  | _ => True
  end.

(** What one round of the read thread got from the system. *)
Inductive read_io :=
| ReadFileFailed (e : error)
| WaitFailed (res : Z)
| OverlappedFailed
| ReadCompleted (buf : list byte) (n : Z).

Definition decimal (z : Z) : string := NilZero.string_of_int (Z.to_int z).

(** One round of the loop of [readThread]; [None] is a run-time panic (an
    index or a slice bound outside the buffer). *)
Definition readThread_round (io : read_io) (d : winDevice) : option winDevice :=
  match io with
  | ReadFileFailed e => Some (readThread_fail e d)
  | WaitFailed res =>
      Some (readThread_fail
              (ErrorMessage ("hid: unexpected read wait state " ++ decimal res)) d)
  | OverlappedFailed =>
      Some (readThread_fail
              (ErrorMessage ("hid: unexpected read result state " ++ decimal 0)) d)
  | ReadCompleted buf n =>
      if n =? 0 then Some (readThread_fail (ErrorMessage "hid: zero byte read") d)
      else
        match buf with
        | [] => None
        | first :: rest =>
            let '(buf, n) :=
              if Byte.eqb first x00 then (rest, n - 1) else (buf, n) in
            if (0 <=? n) && (n <=? Z.of_nat (length buf))
            then Some (readThread_send (take (Z.to_nat n) buf) d)
            else None
        end
  end.

(** The queue after the read thread has offered the reports of [bufs], in
    order. *)
Definition readThread_sends (bufs : list (list byte)) (d : winDevice) : winDevice :=
  fold_left (fun d buf => readThread_send buf d) bufs d.

(** ** The virtual bus ([vigem.go]) *)

Definition VIGEM_ERROR_NONE : Z := 0x20000000.
Definition VIGEM_ERROR_BUS_NOT_FOUND : Z := 0xE0000001.
Definition VIGEM_ERROR_NO_FREE_SLOT : Z := 0xE0000002.
Definition VIGEM_ERROR_INVALID_TARGET : Z := 0xE0000003.
Definition VIGEM_ERROR_REMOVAL_FAILED : Z := 0xE0000004.
Definition VIGEM_ERROR_ALREADY_CONNECTED : Z := 0xE0000005.
Definition VIGEM_ERROR_TARGET_UNINITIALIZED : Z := 0xE0000006.
Definition VIGEM_ERROR_TARGET_NOT_PLUGGED_IN : Z := 0xE0000007.
Definition VIGEM_ERROR_BUS_VERSION_MISMATCH : Z := 0xE0000008.
Definition VIGEM_ERROR_BUS_ACCESS_FAILED : Z := 0xE0000009.
Definition VIGEM_ERROR_CALLBACK_ALREADY_REGISTERED : Z := 0xE0000010.
Definition VIGEM_ERROR_CALLBACK_NOT_FOUND : Z := 0xE0000011.
Definition VIGEM_ERROR_BUS_ALREADY_CONNECTED : Z := 0xE0000012.
Definition VIGEM_ERROR_BUS_INVALID_HANDLE : Z := 0xE0000013.
Definition VIGEM_ERROR_XUSB_USERINDEX_OUT_OF_RANGE : Z := 0xE0000014.
Definition VIGEM_ERROR_MAX : Z := VIGEM_ERROR_XUSB_USERINDEX_OUT_OF_RANGE + 1.

Record VigemError := { code : Z }.

Definition NewVigemError (rawCode : Z) : option VigemError :=
  if rawCode =? VIGEM_ERROR_NONE then None else Some {| code := rawCode |}.

Definition VigemError_Error (err : VigemError) : string :=
  if code err =? VIGEM_ERROR_BUS_NOT_FOUND then "bus not found"
  else if code err =? VIGEM_ERROR_NO_FREE_SLOT then "no free slot"
  else if code err =? VIGEM_ERROR_INVALID_TARGET then "invalid target"
  else if code err =? VIGEM_ERROR_REMOVAL_FAILED then "removal failed"
  else if code err =? VIGEM_ERROR_ALREADY_CONNECTED then "already connected"
  else if code err =? VIGEM_ERROR_TARGET_UNINITIALIZED then "target uninitialized"
  else if code err =? VIGEM_ERROR_TARGET_NOT_PLUGGED_IN then "target not plugged in"
  else if code err =? VIGEM_ERROR_BUS_VERSION_MISMATCH then "bus version mismatch"
  else if code err =? VIGEM_ERROR_BUS_ACCESS_FAILED then "bus access failed"
  else if code err =? VIGEM_ERROR_CALLBACK_ALREADY_REGISTERED
    then "callback already registered"
  else if code err =? VIGEM_ERROR_CALLBACK_NOT_FOUND then "callback not found"
  else if code err =? VIGEM_ERROR_BUS_ALREADY_CONNECTED then "bus already connected"
  else if code err =? VIGEM_ERROR_BUS_INVALID_HANDLE then "bus invalid handle"
  else if code err =? VIGEM_ERROR_XUSB_USERINDEX_OUT_OF_RANGE
    then "xusb userindex out of range"
  else "invalid code returned by ViGEm".

(** The procedures of the client library that the target methods call, and
    what a call answers: the library's code and the system's last error
    (0 is [ERROR_SUCCESS]). *)
Inductive proc :=
| procTargetAdd
| procTargetRemove
| procTargetX360RegisterNotification
| procTargetX360UnregisterNotification
| procTargetX360Update.

Record answer := { libErr : Z; lastErr : Z }.

Inductive call_error :=
| Errno (n : Z)
| Vigem (e : VigemError).

(** The check made after every call: the system's error first, then the
    library's code. *)
Definition call_failed (a : answer) : option call_error :=
  if negb (lastErr a =? 0) then Some (Errno (lastErr a))
  else match NewVigemError (libErr a) with
       | Some e => Some (Vigem e)
       | None => None
       end.

Record Xbox360Controller := {
  emulator_handle : Z;
  handle : Z;
  connected : bool;
  notificationHandler : Z
}.




Definition Send (lib : proc -> answer) (c : Xbox360Controller)
    : option call_error * Xbox360Controller * list proc :=
  (call_failed (lib procTargetX360Update), c, [procTargetX360Update]).

(** ** The main loop ([cmd/main.go]) *)

Record flags := {
  shell : string;
  onCapturePressed : string;
  onCaptureReleased : string;
  onAssistantPressed : string;
  onAssistantReleased : string
}.

(** What the loop does, in order: it sleeps a second, sends a report to the
    emulated controller, starts a command in the shell. *)
Inductive main_event :=
| Slept
| Sent (r : Xbox360ControllerReport)
| Started (sh : string) (cmd : string).

(** [runCommand]; [start] is what starting the command answers. *)
Definition runCommand (cfg : flags) (start : string -> option error) (cmd : string)
    : option error * list main_event :=
  (start cmd, [Started (shell cfg) cmd]).

Definition runButtonPress (cfg : flags) (start : string -> option error)
    (pressed : bool) (ifPressed ifReleased : string)
    : option error * list main_event :=
  if pressed && negb (String.eqb ifPressed "") then runCommand cfg start ifPressed
  else if negb pressed && negb (String.eqb ifReleased "")
  then runCommand cfg start ifReleased
  else (None, []).

(** The two variables of [run] that live across iterations. *)
Record loop_state := {
  assistantPressed : bool;
  capturePressed : bool
}.

Inductive loop_step :=
| Continue (st : loop_state) (out : list main_event)
| Return (e : error) (out : list main_event).

(** [errors.Is(err, RetryError)] on errors that wrap nothing. *)
Definition is_RetryError (e : error) : bool :=
  match e with
  | RetryError => true
  | _ => false
  end.

(** One iteration of the loop of [run]: [got] is what [GetReport] returned
    and [sent] what [Send] answers. *)
Definition loop_body (cfg : flags) (start : string -> option error)
    (st : loop_state) (got : Xbox360ControllerReport * option error)
    (sent : option error) : loop_step :=
  let (report, err) := got in
  match err with
  | Some e => if is_RetryError e then Continue st [Slept] else Return e []
  | None =>
      match sent with
      | Some e => Return e [Sent report]
      | None =>
          let '(st1, err1, out1) :=
            if negb (Bool.eqb (Assistant report) (assistantPressed st)) then
              let st1 := {| assistantPressed := Assistant report;
                            capturePressed := capturePressed st |} in
              let '(e, out) :=
                runButtonPress cfg start (assistantPressed st1)
                  (onAssistantPressed cfg) (onAssistantReleased cfg) in
              (st1, e, out)
            else (st, None, []) in
          match err1 with
          | Some e => Return e (Sent report :: out1)
          | None =>
              let '(st2, err2, out2) :=
                if negb (Bool.eqb (Capture report) (capturePressed st1)) then
                  let st2 := {| assistantPressed := assistantPressed st1;
                                capturePressed := Capture report |} in
                  let '(e, out) :=
                    runButtonPress cfg start (capturePressed st2)
                      (onCapturePressed cfg) (onCaptureReleased cfg) in
                  (st2, e, out)
                else (st1, None, []) in
              match err2 with
              | Some e => Return e (Sent report :: out1 ++ out2)
              | None => Continue st2 (Sent report :: out1 ++ out2)
              end
          end
      end
  end.

(** The loop over what [GetReport] and [Send] answer, iteration by
    iteration, from [assistantPressed, capturePressed := false, false]; it
    ends with the first error returned, or is still running when the
    answers run out. *)
Fixpoint loop_from (cfg : flags) (start : string -> option error) (st : loop_state)
    (answers : list (Xbox360ControllerReport * option error * option error))
    : option error * loop_state * list main_event :=
  match answers with
  | [] => (None, st, [])
  | (got, sent) :: rest =>
      match loop_body cfg start st got sent with
      | Return e out => (Some e, st, out)
      | Continue st' out =>
          let '(e, st'', out') := loop_from cfg start st' rest in
          (e, st'', out ++ out')
      end
  end.

Definition initial_loop_state : loop_state :=
  {| assistantPressed := false; capturePressed := false |}.

(** One iteration of the loop on the controller itself. *)
Definition main_iteration (cfg : flags) (start : string -> option error)
    (sent : option error) (st : loop_state) (w : world)
    : option (loop_step * world) :=
  match GetReport w with
  | Returned r e w' => Some (loop_body cfg start st (r, e) sent, w')
  | Blocked | Panicked => None
  end.




(** The stadia controller's identity. *)
Definition is_stadia (di : DeviceInfo) : bool :=
  (VendorID di =? stadiaControllerVid) && (ProductID di =? stadiaControllerPid).

(** The two sticks of a decoded buffer: left (X, Y) and right (X, Y). *)
Definition sticks (buf : list byte) : option ((Z * Z) * (Z * Z)) :=
  option_map (fun r => (GetLeftThumb r, GetRightThumb r)) (decode buf).

(** Every byte, in increasing order. *)
Definition all_bytes : list byte :=
  map (fun n => byte_of (Z.of_nat n)) (seq 0 256).

(** Another device of the sample platform, not a Stadia controller. *)
Definition sample_mouse : DeviceInfo :=
  {| Path := "\\?\hid#vid_046d&pid_c077"; VendorID := 0x046D; ProductID := 0xC077;
     VersionNumber := 1; Manufacturer := "Logitech"; Product := "USB Optical Mouse";
     UsagePage := 1; Usage := 2; InputReportLength := 4; OutputReportLength := 0 |}.

(** Rounds of the read thread that end it. *)
Definition read_fails (io : read_io) : bool :=
  match io with
  | ReadFileFailed _ | WaitFailed _ | OverlappedFailed => true
  | ReadCompleted _ n => n =? 0
  end.

(** The length of the output reports of a device. *)
Definition outSize (d : winDevice) : nat :=
  Z.to_nat (uint16 (OutputReportLength (info d) + 1)).


(** A sample configuration (a screenshot on Capture) and a report with
    Capture held. *)
Definition sample_flags : flags :=
  {| shell := "pwsh"; onCapturePressed := "sharex -PrintScreen";
     onCaptureReleased := ""; onAssistantPressed := ""; onAssistantReleased := "" |}.

Definition capture_report : Xbox360ControllerReport :=
  {| native := native zero_report; Capture := true; Assistant := false |}.

(** The flags of a report, as the loop tracks them. *)
Definition flags_of (r : Xbox360ControllerReport) : loop_state :=
  {| assistantPressed := Assistant r; capturePressed := Capture r |}.

(** The flags of the last report received without error, [st] when there
    is none. *)
Definition last_flags (st : loop_state)
    (answers : list (Xbox360ControllerReport * option error * option error))
    : loop_state :=
  fold_left (fun st a =>
               match a with
               | ((r, None), _) => flags_of r
               | ((_, Some _), _) => st
               end) answers st.

(** The reports received without error, in order. *)
Fixpoint received_reports
    (answers : list (Xbox360ControllerReport * option error * option error))
    : list Xbox360ControllerReport :=
  match answers with
  | [] => []
  | ((r, None), _) :: rest => r :: received_reports rest
  | ((_, Some _), _) :: rest => received_reports rest
  end.

(** The reports sent to the emulated controller, in order. *)
Fixpoint sent_reports (out : list main_event) : list Xbox360ControllerReport :=
  match out with
  | [] => []
  | Sent r :: rest => r :: sent_reports rest
  | _ :: rest => sent_reports rest
  end.

Definition is_started (ev : main_event) : bool :=
  match ev with
  | Started _ _ => true
  | _ => false
  end.

(** An iteration in which nothing fails for good: the read gives a report
    or [RetryError], and the send succeeds. *)
Definition benign (a : Xbox360ControllerReport * option error * option error) : Prop :=
  snd a = None /\ (snd (fst a) = None \/ snd (fst a) = Some RetryError).

(** An iteration whose report, if any, shows the flags [st]. *)
Definition shows (st : loop_state)
    (a : Xbox360ControllerReport * option error * option error) : Prop :=
  snd (fst a) = None -> flags_of (fst (fst a)) = st.

(** The command that a change of a button from [was] to [now] calls for,
    if any. *)
Definition edge_commands (was now : bool) (ifPressed ifReleased : string)
    : list string :=
  if Bool.eqb now was then []
  else if now then (if String.eqb ifPressed "" then [] else [ifPressed])
  else (if String.eqb ifReleased "" then [] else [ifReleased]).

(** ** Ticks that install nothing *)

(** A step that records no enumeration fault: anything but a tick whose
    enumeration fails. *)
Definition tick_enumerates (a : action) : bool :=
  match a with
  | Tick p => match Devices p with inl _ => true | inr _ => false end
  | _ => true
  end.

(** The sample platform with the controller unplugged: the enumeration
    succeeds and finds no Stadia controller. *)
Definition no_controller : platform :=
  {| Devices := inl [sample_mouse]; Open := sample_open |}.

(** The sample platform with a controller that cannot be opened. *)
Definition open_refused (e : error) : platform :=
  {| Devices := inl [sample_info]; Open := fun _ => inr e |}.

(** ** The axis block with conversions that trap

    Go's [int16(x)] keeps the low 16 bits of [x], whatever [x] is.  To say
    that the conversions of [ParseReport] lose nothing, the decoder is
    written once more with a conversion that panics when its argument is
    outside the range of [int16]: where the two decoders agree, every
    [int16(...)] was given a value that it returned unchanged. *)

Local Open Scope go_scope.

Definition fits_int16 (z : Z) : bool := (- 2 ^ 15 <=? z) && (z <? 2 ^ 15).

(** [int16(z)], panicking where it would wrap. *)
Definition int16_trapping (z : Z) : M Z :=
  fun s => if fits_int16 z then Done (int16 z) s else Panic.

(** [set_axes], each [int16(...)] replaced by the trapping conversion. *)
Definition set_axes_trapping : M unit :=
  d4 <- index 4;;
  let lThumbX := int32 (convertAxisValue d4 - 0x8000) in
  d5 <- index 5;;
  let lThumbY := int32 (int32 (- convertAxisValue d5) + 0x7fff) in
  d6 <- index 6;;
  let rThumbX := int32 (convertAxisValue d6 - 0x8000) in
  d7 <- index 7;;
  let rThumbY := int32 (int32 (- convertAxisValue d7) + 0x7fff) in
  let lThumbY := if lThumbY =? -1 then 0 else lThumbY in
  let rThumbY := if rThumbY =? -1 then 0 else rThumbY in
  lx <- int16_trapping lThumbX;;
  ly <- int16_trapping lThumbY;;
  on_report (SetLeftThumb lx ly);;
  rx <- int16_trapping rThumbX;;
  ry <- int16_trapping rThumbY;;
  on_report (SetRightThumb rx ry).

(** [ParseReport] with [set_axes_trapping] for [set_axes]. *)
Definition ParseReport_trapping : M (option error) :=
  n <- len;;
  if n =? 0 then ret (Some (ErrorMessage "cannot parse empty report"))
  else
    tag <- index 0;;
    if Byte.eqb tag x03 && (10 <=? n) then
      (a <- index 1;;
       b <- index 2;;
       c <- index 3;;
       update_common_buttons b c;;
       update_dpad_buttons a;;
       normalize_axes;;
       set_axes_trapping;;
       set_triggers;;
       ret None)
    else
      (raw <- whole;;
       ret (Some (ErrorMessage
         ("unknown report format; raw report was " ++ base64.EncodeToString raw)%string))).

Local Close Scope go_scope.

Definition run_ParseReport_trapping (buf : list byte) (r : Xbox360ControllerReport)
    : outcome (option error) :=
  ParseReport_trapping {| data := buf; report := r |}.

(** ** Properties of the decoder *)

(** Two runs of the model against known answers: the end-to-end buffer,
    and the RFC 4648 test vectors of the base64 encoding. *)
Example end_to_end_buffer :
  run_ParseReport [x03; x00; x00; x00; x00; x00; x00; x00; x10; x20] zero_report
  = Done None
      {| data := [x03; x00; x00; x00; x00; x00; x00; x00; x10; x20];
         report :=
           {| native := {| wButtons := 1; bLeftTrigger := x10; bRightTrigger := x20;
                           sThumbLX := -32768; sThumbLY := 32767;
                           sThumbRX := -32768; sThumbRY := 32767 |};
              Capture := false; Assistant := false |} |}.
Proof. vm_compute. reflexivity. Qed.

Example base64_foobar :
  base64.EncodeToString [x66; x6f; x6f; x62; x61; x72] = "Zm9vYmFy"%string
  /\ base64.EncodeToString [x66; x6f; x6f; x62; x61] = "Zm9vYmE="%string
  /\ base64.EncodeToString [x66; x6f; x6f; x62] = "Zm9vYg=="%string
  /\ base64.EncodeToString [x66] = "Zg=="%string.
Proof. vm_compute. repeat split; reflexivity. Qed.


Lemma update_common_buttons_run b c s :
  update_common_buttons b c s
  = Done tt {| data := data s; report := common_buttons_effect b c (report s) |}.
Proof. reflexivity. Qed.

Lemma update_dpad_buttons_run a s :
  update_dpad_buttons a s
  = Done tt {| data := data s; report := dpad_effect a (report s) |}.
Proof. destruct s as [buf r]. destruct a; reflexivity. Qed.

Lemma axis_step_run (i : nat) (v : byte) (s : parse_state) :
  data s !! i = Some v ->
  bind (index i) (fun lo =>
    if (byte_val lo <=? 0x7F) && (0x00 <? byte_val lo)
    then bind (index i) (fun v => store i (byte_of (byte_val v - 1)))
    else ret tt) s
  = Done tt {| data := <[i := bias v]> (data s); report := report s |}.
Proof.
  intros Hv. unfold bind, index, store, bias. rewrite Hv.
  destruct ((byte_val v <=? 0x7F) && (0x00 <? byte_val v)).
  - cbv beta. rewrite Hv. cbv beta iota. rewrite Hv. reflexivity.
  - unfold ret. rewrite (list_insert_id _ _ _ Hv). destruct s; reflexivity.
Qed.

Lemma normalize_axes_run p0 p1 p2 p3 d4 d5 d6 d7 rest r :
  normalize_axes {| data := p0 :: p1 :: p2 :: p3 :: d4 :: d5 :: d6 :: d7 :: rest;
                    report := r |}
  = Done tt {| data := p0 :: p1 :: p2 :: p3
                        :: bias d4 :: bias d5 :: bias d6 :: bias d7 :: rest;
               report := r |}.
Proof.
  unfold normalize_axes. cbn [for_range].
  unfold bind at 1. erewrite axis_step_run by reflexivity.
  unfold bind at 1. erewrite axis_step_run by reflexivity.
  unfold bind at 1. erewrite axis_step_run by reflexivity.
  unfold bind at 1. erewrite axis_step_run by reflexivity.
  reflexivity.
Qed.

Lemma set_axes_run p0 p1 p2 p3 d4 d5 d6 d7 rest r :
  set_axes {| data := p0 :: p1 :: p2 :: p3 :: d4 :: d5 :: d6 :: d7 :: rest;
              report := r |}
  = Done tt {| data := p0 :: p1 :: p2 :: p3 :: d4 :: d5 :: d6 :: d7 :: rest;
               report := axes_effect d4 d5 d6 d7 r |}.
Proof.
  unfold set_axes, bind, index, on_report, axes_effect, thumb_x, thumb_y.
  cbv zeta. cbn [data report lookup list_lookup].
  reflexivity.
Qed.

Lemma recognized_inv buf :
  recognized buf ->
  exists a b c d4 d5 d6 d7 t8 t9 rest,
    buf = x03 :: a :: b :: c :: d4 :: d5 :: d6 :: d7 :: t8 :: t9 :: rest.
Proof.
  intros [Htag Hlen].
  do 10 (destruct buf as [|? buf]; [simpl in Hlen; lia|]).
  simpl in Htag. injection Htag as ->. eauto 12.
Qed.

(** The decoder on a recognized report, block by block. *)
Lemma ParseReport_recognized a b c d4 d5 d6 d7 t8 t9 rest r :
  run_ParseReport (x03 :: a :: b :: c :: d4 :: d5 :: d6 :: d7 :: t8 :: t9 :: rest) r
  = Done None
      {| data := x03 :: a :: b :: c
                  :: bias d4 :: bias d5 :: bias d6 :: bias d7 :: t8 :: t9 :: rest;
         report :=
           triggers_effect t8 t9
             (axes_effect (bias d4) (bias d5) (bias d6) (bias d7)
               (dpad_effect a (common_buttons_effect b c r))) |}.
Proof.
  unfold run_ParseReport, ParseReport.
  unfold bind at 1. unfold len at 1. cbn [data length].
  replace (Z.of_nat _ =? 0) with false by (symmetry; apply Z.eqb_neq; lia).
  unfold bind at 1. unfold index at 1. cbn [data lookup list_lookup].
  replace (10 <=? Z.of_nat _) with true by (symmetry; apply Z.leb_le; lia).
  change (Byte.eqb x03 x03) with true. cbn [andb].
  do 3 (unfold bind at 1; unfold index at 1; cbn [data lookup list_lookup]).
  unfold bind at 1; rewrite update_common_buttons_run.
  unfold bind at 1; rewrite update_dpad_buttons_run.
  unfold bind at 1; cbn [data report]; rewrite normalize_axes_run.
  unfold bind at 1; rewrite set_axes_run.
  unfold bind at 1. unfold set_triggers, bind, index, on_report, triggers_effect, ret.
  cbn [data report lookup list_lookup].
  reflexivity.
Qed.

(** *** Integer conversions that lose nothing *)

Lemma wrap_signed_small w z :
  0 < w -> - 2 ^ (w - 1) <= z < 2 ^ (w - 1) -> wrap_signed w z = z.
Proof.
  intros Hw Hz. unfold wrap_signed.
  assert (Hp : 2 ^ w = 2 * 2 ^ (w - 1)).
  { replace w with (Z.succ (w - 1)) at 1 by lia. apply Z.pow_succ_r. lia. }
  rewrite Z.mod_small by lia. lia.
Qed.

Lemma int32_small z : - 2 ^ 31 <= z < 2 ^ 31 -> int32 z = z.
Proof. intros H. apply wrap_signed_small; [lia | exact H]. Qed.

Lemma int16_small z : - 2 ^ 15 <= z < 2 ^ 15 -> int16 z = z.
Proof. intros H. apply wrap_signed_small; [lia | exact H]. Qed.

Lemma byte_val_range v : 0 <= byte_val v <= 255.
Proof. unfold byte_val. pose proof (Byte.to_N_bounded v). lia. Qed.

(** *** The widening step, bit by bit *)

Lemma widen_bits_4_7 (x i : Z) :
  4 <= i <= 7 ->
  Z.testbit (Z.lor (Z.shiftl x 8) (Z.land (Z.shiftl x 1) 0xF)) i = false.
Proof.
  intros Hi.
  rewrite Z.lor_spec, Z.land_spec, Z.shiftl_spec by lia.
  rewrite (Z.testbit_neg_r x (i - 8)) by lia.
  assert (H15 : Z.testbit 0xF i = false).
  { assert (i = 4 \/ i = 5 \/ i = 6 \/ i = 7) as [->|[->|[->| ->]]] by lia;
      reflexivity. }
  rewrite H15, andb_false_r. reflexivity.
Qed.

Lemma widen_eq v :
  widen v = Z.lor (Z.shiftl (byte_val v) 8) (Z.land (Z.shiftl (byte_val v) 1) 0xF).
Proof.
  pose proof (byte_val_range v) as Hv. unfold widen. cbv zeta.
  rewrite (int32_small (byte_val v)) by lia.
  rewrite !Z.shiftl_mul_pow2 by lia.
  rewrite (int32_small (byte_val v * 2 ^ 8)) by lia.
  rewrite (int32_small (byte_val v * 2 ^ 1)) by lia.
  apply int32_small.
  assert (Hl : 0 <= Z.land (byte_val v * 2 ^ 1) 0xF < 2 ^ 4).
  { change 0xF with (Z.ones 4). rewrite Z.land_ones by lia.
    apply Z.mod_pos_bound. lia. }
  assert (Hb : 0 <= Z.lor (byte_val v * 2 ^ 8) (Z.land (byte_val v * 2 ^ 1) 0xF) < 2 ^ 16).
  { split.
    - apply Z.lor_nonneg. lia.
    - destruct (Z.eq_dec (Z.lor (byte_val v * 2 ^ 8) (Z.land (byte_val v * 2 ^ 1) 0xF)) 0)
        as [->|Hne]; [lia|].
      apply Z.log2_lt_pow2; [pose proof (Z.lor_nonneg (byte_val v * 2 ^ 8)
        (Z.land (byte_val v * 2 ^ 1) 0xF)); lia|].
      rewrite Z.log2_lor by lia.
      apply Z.max_lub_lt.
      + destruct (Z.eq_dec (byte_val v) 0) as [->|Hv0]; [simpl; lia|].
        apply Z.log2_lt_pow2; lia.
      + destruct (Z.eq_dec (Z.land (byte_val v * 2 ^ 1) 0xF) 0) as [->|Hl0]; [simpl; lia|].
        apply Z.log2_lt_pow2; lia. }
  lia.
Qed.

Lemma widen_not_0xfffe v : widen v <> 0xfffe.
Proof.
  rewrite widen_eq. intros H.
  pose proof (widen_bits_4_7 (byte_val v) 4 ltac:(lia)) as Hbit.
  rewrite H in Hbit. discriminate Hbit.
Qed.

Lemma convertAxisValue_widen v : convertAxisValue v = widen v.
Proof.
  unfold convertAxisValue. cbv zeta.
  destruct (Z.eqb_spec (widen v) 0xfffe) as [H|H]; [|reflexivity].
  destruct (widen_not_0xfffe v H).
Qed.

Lemma widen_range v : 0 <= widen v <= 0xFF0E.
Proof.
  assert (H : (0 <=? widen v) && (widen v <=? 0xFF0E) = true)
    by (destruct v; reflexivity).
  apply andb_prop in H as [H1 H2]. lia.
Qed.

(** *** Button bits of a report *)

Lemma GetButtons_SetButton k r :
  0 <= k < 16 ->
  GetButtons (SetButton k r) = Z.lor (GetButtons r) (2 ^ k).
Proof.
  intros Hk. unfold GetButtons, SetButton, with_native, uint16. cbn [native wButtons].
  rewrite Z.shiftl_1_l.
  rewrite (Z.mod_small (2 ^ k)) by (split; [lia | apply Z.pow_lt_mono_r; lia]).
  rewrite <- !Z.land_ones by lia.
  rewrite Z.land_lor_distr_l. f_equal.
  rewrite Z.land_ones by lia.
  apply Z.mod_small. split; [lia | apply Z.pow_lt_mono_r; lia].
Qed.

Lemma pressed_SetButton j k r :
  0 <= k < 16 ->
  pressed j (SetButton k r) = pressed j r || (k =? j).
Proof.
  intros Hk. unfold pressed. rewrite GetButtons_SetButton by exact Hk.
  rewrite Z.lor_spec, Z.pow2_bits_eqb by lia. reflexivity.
Qed.

Lemma pressed_MaybeSetButton j k f r :
  0 <= k < 16 ->
  pressed j (MaybeSetButton k f r) = pressed j r || (f && (k =? j)).
Proof.
  intros Hk. unfold MaybeSetButton. destruct f.
  - apply pressed_SetButton, Hk.
  - rewrite orb_false_r. reflexivity.
Qed.

Lemma pressed_zero_report j : pressed j zero_report = false.
Proof. unfold pressed, GetButtons, uint16. cbn. apply Z.testbit_0_l. Qed.

Lemma pressed_common_buttons j b c r :
  pressed j (common_buttons_effect b c r)
  = pressed j r
    || (bit_set c 0x40 && (Xbox360ControllerButtonA =? j))
    || (bit_set c 0x20 && (Xbox360ControllerButtonB =? j))
    || (bit_set c 0x10 && (Xbox360ControllerButtonX =? j))
    || (bit_set c 0x08 && (Xbox360ControllerButtonY =? j))
    || (bit_set c 0x04 && (Xbox360ControllerButtonLeftShoulder =? j))
    || (bit_set c 0x02 && (Xbox360ControllerButtonRightShoulder =? j))
    || (bit_set c 0x01 && (Xbox360ControllerButtonLeftThumb =? j))
    || (bit_set b 0x80 && (Xbox360ControllerButtonRightThumb =? j))
    || (bit_set b 0x40 && (Xbox360ControllerButtonBack =? j))
    || (bit_set b 0x20 && (Xbox360ControllerButtonStart =? j))
    || (bit_set b 0x10 && (Xbox360ControllerButtonGuide =? j)).
Proof.
  unfold common_buttons_effect. cbv zeta.
  match goal with
  | |- pressed j {| native := native ?r'; Capture := _; Assistant := _ |} = _ =>
      change (pressed j {| native := native r'; Capture := bit_set b 1;
                           Assistant := bit_set b 2 |}) with (pressed j r')
  end.
  rewrite !pressed_MaybeSetButton by (cbv; split; [congruence | reflexivity]).
  reflexivity.
Qed.

(** The D-pad bit [j] that direction code [code] sets. *)
Lemma pressed_dpad j a r :
  pressed j (dpad_effect a r)
  = pressed j r ||
    match byte_val a with
    | 0 => Xbox360ControllerButtonUp =? j
    | 1 => (Xbox360ControllerButtonUp =? j) || (Xbox360ControllerButtonRight =? j)
    | 2 => Xbox360ControllerButtonRight =? j
    | 3 => (Xbox360ControllerButtonRight =? j) || (Xbox360ControllerButtonDown =? j)
    | 4 => Xbox360ControllerButtonDown =? j
    | 5 => (Xbox360ControllerButtonDown =? j) || (Xbox360ControllerButtonLeft =? j)
    | 6 => Xbox360ControllerButtonLeft =? j
    | 7 => (Xbox360ControllerButtonLeft =? j) || (Xbox360ControllerButtonUp =? j)
    | _ => false
    end.
Proof.
  unfold dpad_effect.
  destruct a; cbv beta iota delta [byte_val Byte.to_N Z.of_N];
    rewrite ?pressed_SetButton by (cbv; split; [congruence | reflexivity]);
    rewrite ?orb_false_r, ?orb_assoc; reflexivity.
Qed.

Lemma pressed_axes j d4 d5 d6 d7 r : pressed j (axes_effect d4 d5 d6 d7 r) = pressed j r.
Proof. reflexivity. Qed.

Lemma pressed_triggers j t8 t9 r : pressed j (triggers_effect t8 t9 r) = pressed j r.
Proof. reflexivity. Qed.

(** [(x & mask) != 0] for a one-bit mask is the bit itself. *)
Lemma bit_set_testbit x k :
  0 <= k -> bit_set x (2 ^ k) = Z.testbit (byte_val x) k.
Proof.
  intros Hk. unfold bit_set.
  destruct (Z.testbit (byte_val x) k) eqn:Hb.
  - apply negb_true_iff, Z.eqb_neq. intros H0.
    assert (Hk' : Z.testbit (Z.land (byte_val x) (2 ^ k)) k = true)
      by (rewrite Z.land_spec, Hb, Z.pow2_bits_true by lia; reflexivity).
    rewrite H0, Z.testbit_0_l in Hk'. discriminate.
  - apply negb_false_iff, Z.eqb_eq, Z.bits_inj'. intros n Hn.
    rewrite Z.land_spec, Z.testbit_0_l, Z.pow2_bits_eqb by lia.
    destruct (Z.eqb_spec k n) as [->|]; [rewrite Hb|]; apply andb_false_r || reflexivity.
Qed.

(** *** Sticks and buffer of a decoded report *)

Lemma wrap_signed_range w z :
  0 < w -> - 2 ^ (w - 1) <= wrap_signed w z < 2 ^ (w - 1).
Proof.
  intros Hw. unfold wrap_signed.
  assert (Hp : 2 ^ w = 2 * 2 ^ (w - 1)).
  { replace w with (Z.succ (w - 1)) at 1 by lia. apply Z.pow_succ_r. lia. }
  assert (0 < 2 ^ (w - 1)) by (apply Z.pow_pos_nonneg; lia).
  pose proof (Z.mod_pos_bound (z + 2 ^ (w - 1)) (2 ^ w) ltac:(lia)). lia.
Qed.

Lemma int16_idem z : int16 (int16 z) = int16 z.
Proof. apply int16_small. apply (wrap_signed_range 16 z). lia. Qed.

Lemma thumb_x_int16 d : int16 (thumb_x d) = thumb_x d.
Proof. apply int16_idem. Qed.

Lemma thumb_y_int16 d : int16 (thumb_y d) = thumb_y d.
Proof. apply int16_idem. Qed.

Lemma sticks_of_effects a b c d4 d5 d6 d7 t8 t9 r :
  let r' := triggers_effect t8 t9
              (axes_effect d4 d5 d6 d7 (dpad_effect a (common_buttons_effect b c r))) in
  GetLeftThumb r' = (thumb_x d4, thumb_y d5)
  /\ GetRightThumb r' = (thumb_x d6, thumb_y d7).
Proof.
  cbv zeta. unfold GetLeftThumb, GetRightThumb, triggers_effect, axes_effect,
    SetRightTrigger, SetLeftTrigger, SetRightThumb, SetLeftThumb, with_native.
  cbn [native sThumbLX sThumbLY sThumbRX sThumbRY].
  rewrite !thumb_x_int16, !thumb_y_int16. split; reflexivity.
Qed.

(** The code's X and Y computations agree with the specified pipeline on
    every byte. *)
Lemma thumb_x_spec v : thumb_x (bias v) = spec_axis_x (byte_val v).
Proof. destruct v; reflexivity. Qed.

Lemma thumb_y_spec v : thumb_y (bias v) = spec_axis_y (byte_val v).
Proof. destruct v; reflexivity. Qed.

Lemma bias_val v :
  byte_val (bias v)
  = if (1 <=? byte_val v) && (byte_val v <=? 0x7F) then byte_val v - 1 else byte_val v.
Proof. destruct v; reflexivity. Qed.

(** *** The axis claims *)

(** C10: the widened value [(v << 8) | ((v << 1) & 0xF)] of every byte [v]
    has bits 4 to 7 clear, so it is never [0xFFFE]: the clamp branch of
    [convertAxisValue] is never taken, [convertAxisValue] never returns
    [0xFFFF], and its result lies in [0 .. 0xFF0F]. *)
Theorem convertAxisValue_clamp_unreachable (v : byte) :
  let wide := Z.lor (Z.shiftl (byte_val v) 8) (Z.land (Z.shiftl (byte_val v) 1) 0xF) in
  widen v = wide
  /\ Z.testbit wide 4 = false /\ Z.testbit wide 5 = false
  /\ Z.testbit wide 6 = false /\ Z.testbit wide 7 = false
  /\ wide <> 0xFFFE
  /\ convertAxisValue v = wide
  /\ convertAxisValue v <> 0xFFFF
  /\ 0 <= convertAxisValue v <= 0xFF0F.
Proof.
  cbv zeta. rewrite convertAxisValue_widen, <- widen_eq.
  pose proof (widen_range v) as Hr.
  pose proof (widen_not_0xfffe v) as Hne.
  assert (Hb : forall i, 4 <= i <= 7 -> Z.testbit (widen v) i = false)
    by (intros i Hi; rewrite widen_eq; apply widen_bits_4_7; exact Hi).
  repeat split; try (apply Hb; lia); try assumption; lia.
Qed.

(** C1, as the code has it: raw axis byte [0x00] widens to [0x0000] and
    gives X output [-32768]; raw axis byte [0x80], which the bias step
    leaves alone, widens to [0x8000] and gives X output [0]. *)
Theorem axis_round_trip (buf : list byte) (r : Xbox360ControllerReport) :
  recognized buf ->
  (bias x00 = x00 /\ convertAxisValue x00 = 0x0000
   /\ bias x80 = x80 /\ convertAxisValue x80 = 0x8000)
  /\ exists s, run_ParseReport buf r = Done None s
     /\ (buf !! 4%nat = Some x00 -> fst (GetLeftThumb (report s)) = -32768)
     /\ (buf !! 6%nat = Some x00 -> fst (GetRightThumb (report s)) = -32768)
     /\ (buf !! 4%nat = Some x80 -> fst (GetLeftThumb (report s)) = 0)
     /\ (buf !! 6%nat = Some x80 -> fst (GetRightThumb (report s)) = 0).
Proof.
  intros Hrec. split; [repeat split; reflexivity|].
  destruct (recognized_inv buf Hrec)
    as (a & b & c & d4 & d5 & d6 & d7 & t8 & t9 & rest & ->).
  eexists. split; [apply ParseReport_recognized|]. cbn [report].
  destruct (sticks_of_effects a b c (bias d4) (bias d5) (bias d6) (bias d7) t8 t9 r)
    as [HL HR].
  rewrite HL, HR. cbn [fst lookup list_lookup].
  repeat split; intros [= ->]; reflexivity.
Qed.

Lemma axis_round_trip_witness :
  recognized [x03; x08; x00; x00; x00; x80; x80; x80; x00; x00]
  /\ exists s,
       run_ParseReport [x03; x08; x00; x00; x00; x80; x80; x80; x00; x00] zero_report
       = Done None s
       /\ fst (GetLeftThumb (report s)) = -32768
       /\ fst (GetRightThumb (report s)) = 0.
Proof.
  assert (Hrec : recognized [x03; x08; x00; x00; x00; x80; x80; x80; x00; x00])
    by (split; [reflexivity | simpl; lia]).
  split; [exact Hrec|].
  destruct (axis_round_trip _ zero_report Hrec) as (_ & s & Hs & H4 & _ & _ & H6).
  exists s. repeat split; [exact Hs | apply H4; reflexivity | apply H6; reflexivity].
Defined.

(** C1 as stated fails: raw axis byte [0x80] does not widen to [0x8010],
    and its X output is not [-32752]. *)
Lemma axis_0x80_is_not_0x8010 :
  bias x80 = x80
  /\ convertAxisValue x80 = 0x8000
  /\ convertAxisValue x80 <> 0x8010
  /\ option_map (fun r => fst (GetLeftThumb r))
       (decode [x03; x08; x00; x00; x80; x80; x80; x80; x00; x00]) = Some 0
  /\ option_map (fun r => fst (GetLeftThumb r))
       (decode [x03; x08; x00; x00; x80; x80; x80; x80; x00; x00]) <> Some (-32752).
Proof. repeat split; vm_compute; congruence. Qed.

(** C2: in a recognized report every raw axis byte goes through the
    specified pipeline (bias, widening with the [0xFFFE] clamp, [wide -
    0x8000] for X, [-wide + 0x7FFF] with the [-1] snap for Y), the same for
    both sticks. *)
Theorem axis_pipeline (buf : list byte) (r : Xbox360ControllerReport)
    (d4 d5 d6 d7 : byte) :
  recognized buf ->
  buf !! 4%nat = Some d4 -> buf !! 5%nat = Some d5 ->
  buf !! 6%nat = Some d6 -> buf !! 7%nat = Some d7 ->
  exists s, run_ParseReport buf r = Done None s
    /\ GetLeftThumb (report s) = (spec_axis_x (byte_val d4), spec_axis_y (byte_val d5))
    /\ GetRightThumb (report s) = (spec_axis_x (byte_val d6), spec_axis_y (byte_val d7)).
Proof.
  intros Hrec H4 H5 H6 H7.
  destruct (recognized_inv buf Hrec)
    as (a & b & c & e4 & e5 & e6 & e7 & t8 & t9 & rest & ->).
  cbn [lookup list_lookup] in H4, H5, H6, H7.
  injection H4 as ->. injection H5 as ->. injection H6 as ->. injection H7 as ->.
  eexists. split; [apply ParseReport_recognized|]. cbn [report].
  destruct (sticks_of_effects a b c (bias d4) (bias d5) (bias d6) (bias d7) t8 t9 r)
    as [HL HR].
  rewrite HL, HR, !thumb_x_spec, !thumb_y_spec. split; reflexivity.
Qed.

Lemma axis_pipeline_witness :
  exists s,
    run_ParseReport [x03; x08; x00; x00; x01; x7f; xff; x80; x00; x00] zero_report
    = Done None s
    /\ GetLeftThumb (report s) = (-32768, 499)
    /\ GetRightThumb (report s) = (32526, 0).
Proof.
  destruct (axis_pipeline [x03; x08; x00; x00; x01; x7f; xff; x80; x00; x00]
              zero_report x01 x7f xff x80) as (s & Hs & HL & HR);
    [split; [reflexivity | simpl; lia] | reflexivity ..|].
  exists s. repeat split; [exact Hs | exact HL | exact HR].
Defined.

(** *** The button and D-pad claims *)

Ltac eval_button_tests :=
  repeat match goal with
         | |- context [Z.eqb ?x ?y] =>
             let v := eval vm_compute in (Z.eqb x y) in
             change (Z.eqb x y) with v
         end;
  rewrite ?andb_false_r, ?andb_true_r, ?orb_false_r; cbn [orb].

Lemma decode_recognized a b c d4 d5 d6 d7 t8 t9 rest :
  decode (x03 :: a :: b :: c :: d4 :: d5 :: d6 :: d7 :: t8 :: t9 :: rest)
  = Some (triggers_effect t8 t9
           (axes_effect (bias d4) (bias d5) (bias d6) (bias d7)
             (dpad_effect a (common_buttons_effect b c zero_report)))).
Proof. unfold decode. rewrite ParseReport_recognized. reflexivity. Qed.

(** C4: in every recognized report the D-pad byte decodes by the table
    (0 Up, 1 Up+Right, 2 Right, 3 Right+Down, 4 Down, 5 Down+Left, 6 Left,
    7 Left+Up), and any other value sets no D-pad button and is no error. *)
Theorem dpad_decode (buf : list byte) (a : byte) :
  recognized buf ->
  buf !! 1%nat = Some a ->
  exists r, decode buf = Some r /\ dpad_of r = spec_dpad (byte_val a).
Proof.
  intros Hrec Ha.
  destruct (recognized_inv buf Hrec)
    as (a' & b & c & d4 & d5 & d6 & d7 & t8 & t9 & rest & ->).
  cbn [lookup list_lookup] in Ha. injection Ha as ->.
  eexists. split; [apply decode_recognized|].
  unfold dpad_of.
  rewrite !pressed_triggers, !pressed_axes, !pressed_dpad, !pressed_common_buttons,
    !pressed_zero_report.
  eval_button_tests.
  destruct a; reflexivity.
Qed.

Lemma dpad_decode_witness :
  exists r, decode [x03; x05; x00; x00; x80; x80; x80; x80; x00; x00] = Some r
    /\ dpad_of r = (false, false, true, true).
Proof.
  apply (dpad_decode [x03; x05; x00; x00; x80; x80; x80; x80; x00; x00] x05);
    [split; [reflexivity | simpl; lia] | reflexivity].
Defined.

Ltac masks_as_powers :=
  change (bit_set ?x 0x80) with (bit_set x (2 ^ 7));
  change (bit_set ?x 0x40) with (bit_set x (2 ^ 6));
  change (bit_set ?x 0x20) with (bit_set x (2 ^ 5));
  change (bit_set ?x 0x10) with (bit_set x (2 ^ 4));
  change (bit_set ?x 0x08) with (bit_set x (2 ^ 3));
  change (bit_set ?x 0x04) with (bit_set x (2 ^ 2));
  change (bit_set ?x 0x02) with (bit_set x (2 ^ 1));
  change (bit_set ?x 0x01) with (bit_set x (2 ^ 0)).

Lemma bit_set_masked x x' m k :
  0 <= k -> Z.testbit m k = true ->
  Z.land (byte_val x') m = Z.land (byte_val x) m ->
  bit_set x' (2 ^ k) = bit_set x (2 ^ k).
Proof.
  intros Hk Hm Heq. rewrite !bit_set_testbit by exact Hk.
  assert (H : forall y, Z.testbit (byte_val y) k = Z.testbit (Z.land (byte_val y) m) k)
    by (intros y; rewrite Z.land_spec, Hm, andb_true_r; reflexivity).
  rewrite (H x'), (H x), Heq. reflexivity.
Qed.

Lemma common_buttons_unused_bits b b' c c' r :
  Z.land (byte_val b') 0xF3 = Z.land (byte_val b) 0xF3 ->
  Z.land (byte_val c') 0x7F = Z.land (byte_val c) 0x7F ->
  common_buttons_effect b' c' r = common_buttons_effect b c r.
Proof.
  intros Hb Hc. unfold common_buttons_effect.
  masks_as_powers.
  rewrite (bit_set_masked c c' 0x7F 6), (bit_set_masked c c' 0x7F 5),
    (bit_set_masked c c' 0x7F 4), (bit_set_masked c c' 0x7F 3),
    (bit_set_masked c c' 0x7F 2), (bit_set_masked c c' 0x7F 1),
    (bit_set_masked c c' 0x7F 0), (bit_set_masked b b' 0xF3 7),
    (bit_set_masked b b' 0xF3 6), (bit_set_masked b b' 0xF3 5),
    (bit_set_masked b b' 0xF3 4), (bit_set_masked b b' 0xF3 1),
    (bit_set_masked b b' 0xF3 0)
    by (assumption || reflexivity || lia).
  reflexivity.
Qed.

(** C3, as the code has it: decoded into a fresh report, byte 2 carries,
    from bit 7 down, RightThumb, Back, Start, Guide, two unused bits,
    Assistant and Capture; byte 3 carries, from bit 7 down, one unused bit,
    then A, B, X, Y, LeftShoulder, RightShoulder and LeftThumb. So pattern
    [0x40] of byte 3 is A and pattern [0x80] of byte 2 is RightThumb, and
    changing only the unused bits changes nothing in the decoded report. *)
Theorem button_layout (buf : list byte) (b c : byte) :
  recognized buf ->
  buf !! 2%nat = Some b -> buf !! 3%nat = Some c ->
  exists r, decode buf = Some r
    /\ pressed Xbox360ControllerButtonRightThumb r = Z.testbit (byte_val b) 7
    /\ pressed Xbox360ControllerButtonBack r = Z.testbit (byte_val b) 6
    /\ pressed Xbox360ControllerButtonStart r = Z.testbit (byte_val b) 5
    /\ pressed Xbox360ControllerButtonGuide r = Z.testbit (byte_val b) 4
    /\ Assistant r = Z.testbit (byte_val b) 1
    /\ Capture r = Z.testbit (byte_val b) 0
    /\ pressed Xbox360ControllerButtonA r = Z.testbit (byte_val c) 6
    /\ pressed Xbox360ControllerButtonB r = Z.testbit (byte_val c) 5
    /\ pressed Xbox360ControllerButtonX r = Z.testbit (byte_val c) 4
    /\ pressed Xbox360ControllerButtonY r = Z.testbit (byte_val c) 3
    /\ pressed Xbox360ControllerButtonLeftShoulder r = Z.testbit (byte_val c) 2
    /\ pressed Xbox360ControllerButtonRightShoulder r = Z.testbit (byte_val c) 1
    /\ pressed Xbox360ControllerButtonLeftThumb r = Z.testbit (byte_val c) 0
    /\ forall b' c',
         Z.land (byte_val b') 0xF3 = Z.land (byte_val b) 0xF3 ->
         Z.land (byte_val c') 0x7F = Z.land (byte_val c) 0x7F ->
         decode (<[2%nat := b']> (<[3%nat := c']> buf)) = Some r.
Proof.
  intros Hrec Hb Hc.
  destruct (recognized_inv buf Hrec)
    as (a & b0 & c0 & d4 & d5 & d6 & d7 & t8 & t9 & rest & ->).
  cbn [lookup list_lookup] in Hb, Hc. injection Hb as ->. injection Hc as ->.
  eexists. split; [apply decode_recognized|].
  rewrite <- (bit_set_testbit b 7), <- (bit_set_testbit b 6), <- (bit_set_testbit b 5),
    <- (bit_set_testbit b 4), <- (bit_set_testbit b 1), <- (bit_set_testbit b 0),
    <- (bit_set_testbit c 6), <- (bit_set_testbit c 5), <- (bit_set_testbit c 4),
    <- (bit_set_testbit c 3), <- (bit_set_testbit c 2), <- (bit_set_testbit c 1),
    <- (bit_set_testbit c 0) by lia.
  rewrite !pressed_triggers, !pressed_axes, !pressed_dpad, !pressed_common_buttons,
    !pressed_zero_report.
  eval_button_tests.
  repeat split;
    try (destruct a; cbv beta iota delta [byte_val Byte.to_N Z.of_N];
         rewrite ?orb_false_r; reflexivity).
  intros b' c' Hb' Hc'. cbn [insert list_insert].
  rewrite decode_recognized, (common_buttons_unused_bits b b' c c') by assumption.
  reflexivity.
Qed.

Lemma button_layout_witness :
  exists r, decode [x03; x08; x80; x40; x80; x80; x80; x80; x00; x00] = Some r
    /\ pressed Xbox360ControllerButtonRightThumb r = true
    /\ pressed Xbox360ControllerButtonA r = true
    /\ pressed Xbox360ControllerButtonBack r = false.
Proof.
  destruct (button_layout [x03; x08; x80; x40; x80; x80; x80; x80; x00; x00] x80 x40)
    as (r & Hr & HRT & HBack & _ & _ & _ & _ & HA & _);
    [split; [reflexivity | simpl; lia] | reflexivity | reflexivity |].
  exists r. repeat split; [exact Hr | exact HRT | exact HA | exact HBack].
Defined.

(** C3 as stated fails: pattern [0x40] of byte 2 does not press A (it
    presses Back), pattern [0x80] of byte 3 does not set RightThumb (it sets
    nothing), and bit 3 of byte 2 is not Assistant. *)
Lemma button_bytes_not_as_claimed :
  exists r, decode [x03; x08; x48; x80; x80; x80; x80; x80; x00; x00] = Some r
    /\ pressed Xbox360ControllerButtonA r = false
    /\ pressed Xbox360ControllerButtonRightThumb r = false
    /\ Assistant r = false
    /\ GetButtons r = 2 ^ Xbox360ControllerButtonBack.
Proof. eexists. split; [vm_compute; reflexivity|]. repeat split. Qed.

(** C5: the end-to-end buffer decodes without error to: D-pad Up and no
    other button, both sticks at X = -32768 with the Y rule applied to byte
    0x00 (which gives 32767), left trigger 16 and right trigger 32. *)
Theorem end_to_end_scenario :
  exists r,
    decode [x03; x00; x00; x00; x00; x00; x00; x00; x10; x20] = Some r
    /\ GetButtons r = 2 ^ Xbox360ControllerButtonUp
    /\ dpad_of r = (true, false, false, false)
    /\ Capture r = false /\ Assistant r = false
    /\ GetLeftThumb r = (-32768, spec_axis_y 0x00)
    /\ GetRightThumb r = (-32768, spec_axis_y 0x00)
    /\ spec_axis_y 0x00 = 32767
    /\ byte_val (GetLeftTrigger r) = 16
    /\ byte_val (GetRightTrigger r) = 32.
Proof. eexists. split; [vm_compute; reflexivity|]. repeat split. Qed.

(** *** The caller's buffer *)

(** C9: [ParseReport] writes to its input buffer: in a recognized report
    each byte at index 4 to 7 whose value is in [0x01 .. 0x7F] is
    decremented in place and every other byte is kept; so a second decoding
    of the same buffer can give other stick values than the first. *)
Theorem ParseReport_mutates_buffer (buf : list byte) (r : Xbox360ControllerReport) :
  recognized buf ->
  (exists s, run_ParseReport buf r = Done None s
     /\ length (data s) = length buf
     /\ forall (i : nat) (v : byte), buf !! i = Some v ->
          exists v', data s !! i = Some v'
            /\ byte_val v' =
               if ((4 <=? i)%nat && (i <=? 7)%nat)
                  && (1 <=? byte_val v) && (byte_val v <=? 0x7F)
               then byte_val v - 1 else byte_val v)
  /\ (exists buf1 s1 s2,
        run_ParseReport buf1 zero_report = Done None s1
        /\ run_ParseReport (data s1) zero_report = Done None s2
        /\ GetLeftThumb (report s1) <> GetLeftThumb (report s2)
        /\ GetRightThumb (report s1) <> GetRightThumb (report s2)).
Proof.
  intros Hrec. split.
  - destruct (recognized_inv buf Hrec)
      as (a & b & c & d4 & d5 & d6 & d7 & t8 & t9 & rest & ->).
    eexists. split; [apply ParseReport_recognized|]. cbn [data].
    split; [reflexivity|].
    intros i v Hv.
    do 4 (destruct i as [|i];
          [cbn [lookup list_lookup] in *; exists v; split; [exact Hv | reflexivity]|]).
    do 4 (destruct i as [|i];
          [cbn [lookup list_lookup] in *; injection Hv as <-;
           eexists; split; [reflexivity | apply bias_val]|]).
    cbn [lookup list_lookup] in *. exists v. split; [exact Hv|].
    destruct i as [|[|i]]; reflexivity.
  - exists [x03; x08; x00; x00; x02; x02; x02; x02; x00; x00].
    do 2 eexists.
    split; [vm_compute; reflexivity|].
    split; [vm_compute; reflexivity|].
    split; vm_compute; congruence.
Qed.

Lemma ParseReport_mutates_buffer_witness :
  exists s,
    run_ParseReport [x03; x08; x00; x00; x01; x7f; x80; x00; x00; x00] zero_report
    = Done None s
    /\ data s = [x03; x08; x00; x00; x00; x7e; x80; x00; x00; x00].
Proof.
  destruct (ParseReport_mutates_buffer
              [x03; x08; x00; x00; x01; x7f; x80; x00; x00; x00] zero_report)
    as [(s & Hs & _) _]; [split; [reflexivity | simpl; lia]|].
  exists s. split; [exact Hs|].
  vm_compute in Hs. injection Hs as <-. reflexivity.
Defined.

(** *** The base64 rendering of an unrecognized report *)

Lemma list_ind3 {A} (P : list A -> Prop) :
  P [] -> (forall a, P [a]) -> (forall a b, P [a; b]) ->
  (forall a b c l, P l -> P (a :: b :: c :: l)) ->
  forall l, P l.
Proof.
  intros H0 H1 H2 H3.
  fix IH 1. intros [|a [|b [|c l]]]; [exact H0 | apply H1 | apply H2 | apply H3, IH].
Qed.

Lemma sextet_char_inv n :
  (n < 64)%N ->
  base64.char_sextet (base64.sextet_char n) = Some n
  /\ Ascii.eqb (base64.sextet_char n) "=" = false.
Proof.
  intros Hn.
  assert (Hall : forallb (fun k =>
             match base64.char_sextet (base64.sextet_char (N.of_nat k)) with
             | Some m => N.eqb m (N.of_nat k)
             | None => false
             end && negb (Ascii.eqb (base64.sextet_char (N.of_nat k)) "="))
           (seq 0 64) = true) by (vm_compute; reflexivity).
  rewrite forallb_forall in Hall.
  assert (Hin : In (N.to_nat n) (seq 0 64)) by (apply in_seq; lia).
  specialize (Hall _ Hin). rewrite N2Nat.id in Hall.
  apply andb_prop in Hall as [H1 H2].
  destruct (base64.char_sextet (base64.sextet_char n)) as [m|]; [|discriminate].
  apply N.eqb_eq in H1 as ->. split; [reflexivity|].
  apply negb_true_iff, H2.
Qed.

Lemma byte_of_N_to_N (n : N) (a : byte) :
  (n mod 256 = Byte.to_N a)%N -> base64.byte_of_N n = a.
Proof. intros H. unfold base64.byte_of_N. rewrite H, Byte.of_to_N. reflexivity. Qed.

Ltac sextets_inv :=
  repeat match goal with
         | |- context [base64.char_sextet (base64.sextet_char ?n)] =>
             rewrite (proj1 (sextet_char_inv n (N.mod_lt _ 64 ltac:(discriminate))))
         | |- context [Ascii.eqb (base64.sextet_char ?n) "="] =>
             rewrite (proj2 (sextet_char_inv n (N.mod_lt _ 64 ltac:(discriminate))))
         end.

Ltac group_arith :=
  apply byte_of_N_to_N;
  repeat match goal with
         | a : byte |- _ =>
             lazymatch goal with
             | H : (Byte.to_N a <= 255)%N |- _ => fail
             | _ => pose proof (Byte.to_N_bounded a)
             end
         end;
  zify; Z.to_euclidean_division_equations; lia.

(** Decoding what [EncodeToString] produced gives the bytes back. *)
Lemma DecodeString_EncodeToString (src : list byte) :
  base64.DecodeString (base64.EncodeToString src) = Some src.
Proof.
  induction src as [|a|a b|a b c rest IH] using list_ind3.
  - reflexivity.
  - cbn [base64.EncodeToString base64.DecodeString]. cbv zeta.
    sextets_inv. cbn [Ascii.eqb Bool.eqb]. 
    do 2 f_equal. group_arith.
  - cbn [base64.EncodeToString base64.DecodeString]. cbv zeta.
    sextets_inv. cbn [Ascii.eqb Bool.eqb].
    f_equal. f_equal; [|f_equal]; group_arith.
  - cbn [base64.EncodeToString base64.DecodeString]. cbv zeta.
    sextets_inv. rewrite IH. cbn [option_map].
    f_equal. f_equal; [|f_equal; [|f_equal]]; group_arith.
Qed.

(** *** Totality of the decoder *)

Lemma ParseReport_empty r :
  run_ParseReport [] r
  = Done (Some (ErrorMessage "cannot parse empty report")) {| data := []; report := r |}.
Proof. reflexivity. Qed.

Lemma ParseReport_unknown tag rest r :
  Byte.eqb tag x03 && (10 <=? Z.of_nat (length (tag :: rest))) = false ->
  run_ParseReport (tag :: rest) r
  = Done (Some (ErrorMessage
       ("unknown report format; raw report was "
          ++ base64.EncodeToString (tag :: rest))%string))
      {| data := tag :: rest; report := r |}.
Proof.
  intros Hc. unfold run_ParseReport, ParseReport.
  unfold bind at 1. unfold len at 1. cbn [data].
  replace (Z.of_nat (length (tag :: rest)) =? 0) with false
    by (symmetry; apply Z.eqb_neq; cbn [length]; lia).
  unfold bind at 1. unfold index at 1. cbn [data lookup list_lookup].
  rewrite Hc. reflexivity.
Qed.

Lemma recognized_test tag rest :
  Byte.eqb tag x03 && (10 <=? Z.of_nat (length (tag :: rest))) = true
  <-> recognized (tag :: rest).
Proof.
  unfold recognized. cbn [lookup list_lookup]. rewrite andb_true_iff, Z.leb_le. split.
  - intros [Ht Hl]. apply Byte.byte_dec_bl in Ht as ->. split; [reflexivity | lia].
  - intros [[= ->] Hl]. split; [reflexivity | lia].
Qed.

Lemma ParseReport_cases (buf : list byte) (r : Xbox360ControllerReport) :
  (buf = [] /\ run_ParseReport buf r
     = Done (Some (ErrorMessage "cannot parse empty report"))
         {| data := buf; report := r |})
  \/ (buf <> [] /\ ~ recognized buf /\ run_ParseReport buf r
     = Done (Some (ErrorMessage
          ("unknown report format; raw report was "
             ++ base64.EncodeToString buf)%string))
         {| data := buf; report := r |})
  \/ (buf <> [] /\ recognized buf /\ exists s, run_ParseReport buf r = Done None s).
Proof.
  destruct buf as [|tag rest].
  - left. split; [reflexivity | apply ParseReport_empty].
  - right.
    destruct (Byte.eqb tag x03 && (10 <=? Z.of_nat (length (tag :: rest)))) eqn:Hc.
    + right. apply recognized_test in Hc as Hrec.
      split; [discriminate|]. split; [exact Hrec|].
      destruct (recognized_inv _ Hrec)
        as (a & b & c & d4 & d5 & d6 & d7 & t8 & t9 & rest' & ->).
      eexists. apply ParseReport_recognized.
    + left. split; [discriminate|]. split.
      * intros Hrec. apply recognized_test in Hrec. congruence.
      * apply ParseReport_unknown, Hc.
Qed.

Lemma ParseReport_unrecognized buf r :
  ~ recognized buf ->
  run_ParseReport buf r = Done (Some (parse_error buf)) {| data := buf; report := r |}.
Proof.
  intros Hn.
  destruct (ParseReport_cases buf r) as [[-> H]|[(Hne & _ & H)|(_ & Hrec & _)]].
  - exact H.
  - destruct buf; [contradiction | exact H].
  - contradiction.
Qed.

(** C6: [ParseReport] never panics. On the empty buffer it returns the
    empty-report error; on a non-empty buffer whose first byte is not
    [0x03] or whose length is below 10 it returns the unknown-format error,
    whose message ends with the base64 text of the raw bytes (from which the
    bytes can be read back); it returns no error exactly on the buffers
    with tag [0x03] and length at least 10. An error leaves buffer and
    report as they were. *)
Theorem ParseReport_total (buf : list byte) (r : Xbox360ControllerReport) :
  run_ParseReport buf r <> Panic
  /\ (buf = [] ->
      run_ParseReport buf r
      = Done (Some (ErrorMessage "cannot parse empty report"))
          {| data := buf; report := r |})
  /\ (buf <> [] -> buf !! 0%nat <> Some x03 \/ (length buf < 10)%nat ->
      run_ParseReport buf r
      = Done (Some (ErrorMessage
           ("unknown report format; raw report was "
              ++ base64.EncodeToString buf)%string))
          {| data := buf; report := r |})
  /\ base64.DecodeString (base64.EncodeToString buf) = Some buf
  /\ ((exists s, run_ParseReport buf r = Done None s) <-> recognized buf).
Proof.
  pose proof (ParseReport_cases buf r) as Hcases.
  split; [|split; [|split; [|split]]].
  - destruct Hcases as [[_ H]|[(_ & _ & H)|(_ & _ & s & H)]]; rewrite H; discriminate.
  - intros ->. apply ParseReport_empty.
  - intros Hne Hnot.
    destruct Hcases as [[H _]|[(_ & _ & H)|(_ & [Htag Hlen] & _)]];
      [contradiction | exact H | destruct Hnot; [contradiction | lia]].
  - apply DecodeString_EncodeToString.
  - split.
    + intros [s Hs].
      destruct Hcases as [[_ H]|[(_ & _ & H)|(_ & Hrec & _)]];
        [rewrite H in Hs; discriminate | rewrite H in Hs; discriminate | exact Hrec].
    + intros Hrec.
      destruct Hcases as [[-> _]|[(_ & Hn & _)|(_ & _ & H)]];
        [destruct Hrec as [[=] _] | contradiction | exact H].
Qed.

Lemma ParseReport_total_witness :
  run_ParseReport [] zero_report
  = Done (Some (ErrorMessage "cannot parse empty report"))
      {| data := []; report := zero_report |}
  /\ run_ParseReport [x03; x01; x02] zero_report
     = Done (Some (ErrorMessage "unknown report format; raw report was AwEC"))
         {| data := [x03; x01; x02]; report := zero_report |}
  /\ run_ParseReport [x04; x00; x00; x00; x00; x00; x00; x00; x00; x00] zero_report
     = Done (Some (ErrorMessage
          "unknown report format; raw report was BAAAAAAAAAAAAA=="))
         {| data := [x04; x00; x00; x00; x00; x00; x00; x00; x00; x00];
            report := zero_report |}.
Proof.
  split; [|split].
  - apply (ParseReport_total [] zero_report). reflexivity.
  - apply (ParseReport_total [x03; x01; x02] zero_report);
      [discriminate | right; simpl; lia].
  - apply (ParseReport_total
             [x04; x00; x00; x00; x00; x00; x00; x00; x00; x00] zero_report);
      [discriminate | left; discriminate].
Defined.

(** ** Properties of the device session and the presence supervisor *)

Lemma scan_devices_device_excludes_fault p devices w :
  err (controller w) = None ->
  err (controller (scan_devices p devices w)) = None.
Proof.
  intros He. induction devices as [|di rest IH]; cbn [scan_devices]; [exact He|].
  destruct ((VendorID di =? stadiaControllerVid) && (ProductID di =? stadiaControllerPid));
    [|exact IH].
  destruct (Open p di); exact He.
Qed.

Lemma step_device_excludes_fault a w :
  device_excludes_fault w -> device_excludes_fault (step a w).
Proof.
  unfold device_excludes_fault. intros Hw.
  assert (Hinv : forall d, device (controller w) = Some d -> err (controller w) = None)
    by (intros d Hd; destruct Hw as [Hw|Hw]; [congruence | exact Hw]).
  clear Hw.
  destruct a as [p| |l s written|buf|e|]; cbn [step].
  - unfold tick.
    destruct (negb (scanning w) || ticker_stopped (controller w)).
    { destruct (device (controller w)) eqn:Hd;
        [right; eapply Hinv; reflexivity | left; reflexivity]. }
    destruct (device (controller w)) eqn:Hd; [right; eapply Hinv; reflexivity|].
    destruct (err (controller w)) eqn:He; [left; exact Hd|].
    destruct (Devices p) as [devices|e]; [|left; reflexivity].
    right. apply scan_devices_device_excludes_fault. exact He.
  - unfold GetReport. destruct (device (controller w)) as [d|] eqn:Hd;
      [|left; exact Hd].
    pose proof (Hinv d eq_refl) as He.
    destruct (receive d) as [buf d'| |]; [|left; reflexivity|right; exact He].
    destruct (run_ParseReport buf zero_report) as [[e|] s|]; right; exact He.
  - unfold Vibrate. destruct (device (controller w)) eqn:Hd;
      [right; eapply Hinv; reflexivity | left; exact Hd].
  - unfold on_device. destruct (device (controller w)) eqn:Hd;
      [right; eapply Hinv; reflexivity | left; exact Hd].
  - unfold on_device. destruct (device (controller w)) eqn:Hd;
      [right; eapply Hinv; reflexivity | left; exact Hd].
  - unfold Close. destruct (device (controller w)) eqn:Hd;
      [right; eapply Hinv; reflexivity | left; reflexivity].
Qed.

Lemma run_device_excludes_fault actions w :
  device_excludes_fault w -> device_excludes_fault (run actions w).
Proof.
  revert w. induction actions as [|a rest IH]; intros w Hw; cbn [run]; [exact Hw|].
  apply IH, step_device_excludes_fault, Hw.
Qed.

Lemma reachable_device_excludes_fault actions :
  device_excludes_fault (run actions NewStadiaController).
Proof. apply run_device_excludes_fault. left. reflexivity. Qed.

Section AfterAFault.

Variable e : error.

Lemma step_faulted a w :
  faulted e w -> faulted e (step a w) /\ trace (step a w) = trace w.
Proof.
  intros (Hd & He & Hs).
  destruct a as [p| |l s written|buf|e'|]; cbn [step].
  - unfold tick. rewrite Hs. cbn [negb orb]. repeat split; assumption.
  - unfold GetReport. rewrite Hd. repeat split; assumption.
  - unfold Vibrate. rewrite Hd. repeat split; assumption.
  - unfold on_device. rewrite Hd. repeat split; assumption.
  - unfold on_device. rewrite Hd. repeat split; assumption.
  - unfold Close. rewrite Hd. repeat split; assumption.
Qed.

Lemma run_faulted actions w :
  faulted e w -> faulted e (run actions w) /\ trace (run actions w) = trace w.
Proof.
  revert w. induction actions as [|a rest IH]; intros w Hw; cbn [run].
  - split; [exact Hw | reflexivity].
  - destruct (step_faulted a w Hw) as [Hw' Ht].
    destruct (IH _ Hw') as [Hw'' Ht']. split; [exact Hw'' | congruence].
Qed.

End AfterAFault.

(** C8: when the enumeration fails, the supervisor records the error and
    leaves its loop; whatever happens afterwards, no further enumeration
    (indeed no device I/O at all) takes place, no device is ever installed,
    and every read returns the recorded error, not [RetryError]. *)
Theorem enumeration_fault_is_permanent (p : platform) (e : error) (w : world)
    (rest : list action) :
  scanning w = true -> ticker_stopped (controller w) = false ->
  device (controller w) = None -> err (controller w) = None ->
  Devices p = inr e -> e <> RetryError ->
  let w1 := tick p w in
  let w2 := run rest w1 in
  trace w1 = trace w ++ [IoEnumerate]
  /\ err (controller w1) = Some e
  /\ scanning w1 = false
  /\ trace w2 = trace w1
  /\ enumerations (trace w2) = enumerations (trace w1)
  /\ device (controller w2) = None
  /\ err (controller w2) = Some e
  /\ GetReport w2 = Returned zero_report (Some e) w2
  /\ Some e <> Some RetryError.
Proof.
  intros Hs Ht Hd He Hp Hne. cbv zeta.
  assert (Hw1 : tick p w
                = {| controller := {| device := None; ticker_stopped := false;
                                      err := Some e |};
                     scanning := false; trace := trace w ++ [IoEnumerate] |}).
  { unfold tick. rewrite Hs, Ht, Hd, He, Hp. reflexivity. }
  assert (Hf : faulted e (tick p w)) by (rewrite Hw1; repeat split).
  destruct (run_faulted e rest _ Hf) as [(Hd2 & He2 & Hs2) Ht2].
  repeat split.
  - rewrite Hw1. reflexivity.
  - rewrite Hw1. reflexivity.
  - rewrite Hw1. reflexivity.
  - exact Ht2.
  - rewrite Ht2. reflexivity.
  - exact Hd2.
  - exact He2.
  - unfold GetReport. rewrite Hd2, He2. reflexivity.
  - intros [= ->]. apply Hne. reflexivity.
Qed.

Lemma enumeration_fault_is_permanent_witness :
  let w1 := tick (enumeration_broken (PlatformError 5)) NewStadiaController in
  let w2 := run [Tick plugged_in; Read; Tick plugged_in; Read; Read] w1 in
  trace w2 = [IoEnumerate]
  /\ GetReport w2 = Returned zero_report (Some (PlatformError 5)) w2.
Proof.
  cbv zeta.
  destruct (enumeration_fault_is_permanent (enumeration_broken (PlatformError 5))
              (PlatformError 5) NewStadiaController
              [Tick plugged_in; Read; Tick plugged_in; Read; Read])
    as (H1 & _ & _ & H2 & _ & _ & _ & H3 & _);
    [reflexivity | reflexivity | reflexivity | reflexivity | reflexivity | discriminate |].
  split; [rewrite H2, H1; reflexivity | exact H3].
Defined.

Lemma step_waiting a w :
  is_tick a = false -> waiting w -> waiting (step a w) /\ trace (step a w) = trace w.
Proof.
  intros Ha (Hd & He).
  destruct a as [p| |l s written|buf|e'|]; [discriminate Ha|..]; cbn [step].
  - unfold GetReport. rewrite Hd. repeat split; assumption.
  - unfold Vibrate. rewrite Hd. repeat split; assumption.
  - unfold on_device. rewrite Hd. repeat split; assumption.
  - unfold on_device. rewrite Hd. repeat split; assumption.
  - unfold Close. rewrite Hd. repeat split; assumption.
Qed.

Lemma run_waiting actions w :
  forallb (fun a => negb (is_tick a)) actions = true ->
  waiting w -> waiting (run actions w) /\ trace (run actions w) = trace w.
Proof.
  revert w. induction actions as [|a rest IH]; intros w Hall Hw; cbn [run].
  - split; [exact Hw | reflexivity].
  - cbn [forallb] in Hall. apply andb_prop in Hall as [Ha Hrest].
    apply negb_true_iff in Ha.
    destruct (step_waiting a w Ha Hw) as [Hw' Ht].
    destruct (IH _ Hrest Hw') as [Hw'' Ht']. split; [exact Hw'' | congruence].
Qed.

(** A step other than a tick whose enumeration fails records no fault. *)
Lemma step_records_no_fault a w :
  tick_enumerates a = true ->
  err (controller w) = None -> err (controller (step a w)) = None.
Proof.
  intros Ha He. destruct a as [p| |l s written|buf|e|]; cbn [step tick_enumerates] in *.
  - unfold tick.
    destruct (negb (scanning w) || ticker_stopped (controller w)); [exact He|].
    destruct (device (controller w)); [exact He|]. rewrite He.
    destruct (Devices p) as [devices|e]; [|discriminate Ha].
    apply scan_devices_device_excludes_fault. exact He.
  - unfold GetReport. destruct (device (controller w)) as [d|]; [|exact He].
    destruct (receive d) as [b d'| |]; [|exact He|exact He].
    destruct (run_ParseReport b zero_report) as [[e|] s|]; exact He.
  - unfold Vibrate. destruct (device (controller w)); exact He.
  - unfold on_device. destruct (device (controller w)); exact He.
  - unfold on_device. destruct (device (controller w)); exact He.
  - unfold Close. destruct (device (controller w)); exact He.
Qed.

Lemma run_records_no_fault actions w :
  forallb tick_enumerates actions = true ->
  err (controller w) = None -> err (controller (run actions w)) = None.
Proof.
  revert w. induction actions as [|a rest IH]; intros w Hall Hw; cbn [run];
    [exact Hw|].
  cbn [forallb] in Hall. apply andb_prop in Hall as [Ha Hrest].
  apply IH; [exact Hrest | apply step_records_no_fault; assumption].
Qed.

(** C7, as the code has it: when the read channel is closed, [GetReport]
    logs, closes the device, drops it and returns [RetryError]. From then
    on every read made while no device is installed changes nothing, so
    does nothing to any device, and returns [RetryError] again: this holds
    after any steps in which no enumeration fails, also after ticks that
    find no controller or cannot open it (once an enumeration has failed,
    the read returns that recorded error instead); and with no tick in
    between the trace does not grow at all. A report that does not decode
    also gives [RetryError], and the device stays installed and open. *)
Theorem GetReport_closed_or_undecodable (actions : list action) (d : winDevice) :
  let w := run actions NewStadiaController in
  device (controller w) = Some d ->
  (readCh d = [] -> readCh_closed d = true ->
   exists w',
     GetReport w = Returned zero_report (Some RetryError) w'
     /\ device (controller w') = None
     /\ trace w' = trace w ++
          [LogUnableToRead (readErr d); LogWaiting; IoClose (Path (info d))]
     /\ (forall later,
           forallb (fun a => negb (is_tick a)) later = true ->
           trace (run later w') = trace w'
           /\ GetReport (run later w')
              = Returned zero_report (Some RetryError) (run later w'))
     /\ (forall later,
           device (controller (run later w')) = None ->
           step Read (run later w') = run later w'
           /\ (forallb tick_enumerates later = true ->
               GetReport (run later w')
               = Returned zero_report (Some RetryError) (run later w'))
           /\ (forall e,
                 err (controller (run later w')) = Some e ->
                 GetReport (run later w')
                 = Returned zero_report (Some e) (run later w'))))
  /\ (forall buf queue,
        readCh d = buf :: queue -> ~ recognized buf ->
        exists w' d',
          GetReport w = Returned zero_report (Some RetryError) w'
          /\ device (controller w') = Some d'
          /\ info d' = info d /\ handle_valid d' = handle_valid d
          /\ readCh d' = queue /\ readCh_closed d' = readCh_closed d
          /\ readErr d' = readErr d
          /\ trace w' = trace w ++
               [IoReceive (Path (info d)) buf; LogUnableToParse (parse_error buf)]).
Proof.
  cbv zeta. intros Hd.
  assert (He : err (controller (run actions NewStadiaController)) = None).
  { destruct (reachable_device_excludes_fault actions) as [H|H]; [congruence | exact H]. }
  set (w := run actions NewStadiaController) in *.
  split.
  - intros Hq Hc.
    eexists. split.
    { unfold GetReport, receive. rewrite Hd, Hq, Hc. reflexivity. }
    split; [reflexivity|]. split; [reflexivity|]. split.
    { intros later Hlater.
      match goal with
      | |- context [run later ?w0] =>
          destruct (run_waiting later w0 Hlater) as [[Hd' He'] Ht'];
            [split; [reflexivity | exact He]|]
      end.
      split; [exact Ht'|].
      unfold GetReport. rewrite Hd', He'. reflexivity. }
    { intros later Hd'.
      split; [cbn [step]; unfold GetReport; rewrite Hd'; reflexivity|].
      split.
      - intros Hlater. unfold GetReport. rewrite Hd'.
        rewrite run_records_no_fault by assumption. reflexivity.
      - intros e He'. unfold GetReport. rewrite Hd', He'. reflexivity. }
  - intros buf queue Hq Hn.
    do 2 eexists. split.
    { unfold GetReport, receive. rewrite Hd, Hq.
      rewrite (ParseReport_unrecognized buf zero_report Hn). cbn [report]. reflexivity. }
    split; [reflexivity|].
    repeat split. cbn [trace controller]. rewrite <- app_assoc. reflexivity.
Qed.

Lemma GetReport_closed_or_undecodable_witness :
  let w := run [Tick plugged_in; ReadFail (PlatformError 1167)] NewStadiaController in
  exists w',
    GetReport w = Returned zero_report (Some RetryError) w'
    /\ device (controller w') = None
    /\ trace w' =
       [IoEnumerate; IoOpen (Path sample_info); LogOpened (Path sample_info);
        LogUnableToRead (Some (PlatformError 1167)); LogWaiting;
        IoClose (Path sample_info)]
    /\ (let w'' := run [Tick no_controller; Read;
                        Tick (open_refused (PlatformError 5))] w' in
        GetReport w'' = Returned zero_report (Some RetryError) w''
        /\ step Read w'' = w''
        /\ trace w'' =
           trace w' ++ [IoEnumerate; IoEnumerate; IoOpen (Path sample_info);
                        LogCannotOpen (Path sample_info) (PlatformError 5)]).
Proof.
  cbv zeta.
  destruct (GetReport_closed_or_undecodable
              [Tick plugged_in; ReadFail (PlatformError 1167)]
              {| info := sample_info; handle_valid := true; readCh := [];
                 readCh_closed := true; readErr := Some (PlatformError 1167) |}
              eq_refl) as [Hclosed _].
  destruct (Hclosed eq_refl eq_refl) as (w' & Hw' & Hd' & Ht' & _ & Hlater).
  assert (Hc : Returned zero_report (Some RetryError)
                 {| controller := {| device := None; ticker_stopped := false;
                                     err := None |};
                    scanning := true;
                    trace := [IoEnumerate; IoOpen (Path sample_info);
                              LogOpened (Path sample_info);
                              LogUnableToRead (Some (PlatformError 1167)); LogWaiting;
                              IoClose (Path sample_info)] |}
               = Returned zero_report (Some RetryError) w')
    by (rewrite <- Hw'; reflexivity).
  injection Hc as <-.
  eexists. split; [exact Hw'|]. split; [exact Hd'|]. split; [exact Ht'|].
  destruct (Hlater [Tick no_controller; Read; Tick (open_refused (PlatformError 5))]
              eq_refl) as (HR & HG & _).
  split; [exact (HG eq_refl)|]. split; [exact HR | reflexivity].
Defined.

(** C7 as stated fails: the read on a closed channel returns the very
    error that a read of an undecodable report returns, [RetryError], and
    it is not final: after the supervisor's next tick has reopened the
    controller, the next read receives from the device and returns a report
    with no error. *)
Lemma closed_channel_read_is_retry_and_not_final :
  let unplugged :=
    run [Tick plugged_in; ReadFail (PlatformError 1167)] NewStadiaController in
  let garbled := run [Tick plugged_in; Deliver [x01; x02]] NewStadiaController in
  let frame := [x03; x08; x00; x00; x80; x80; x80; x80; x00; x00] in
  exists w1 w2 w3 r,
    GetReport unplugged = Returned zero_report (Some RetryError) w1
    /\ GetReport garbled = Returned zero_report (Some RetryError) w2
    /\ device (controller w2) <> None
    /\ GetReport (run [Read; Tick plugged_in; Deliver frame] w1) = Returned r None w3
    /\ trace w3 = trace w1 ++
         [IoEnumerate; IoOpen (Path sample_info); LogOpened (Path sample_info);
          IoReceive (Path sample_info) frame].
Proof.
  cbv zeta. do 4 eexists.
  split; [vm_compute; reflexivity|].
  split; [vm_compute; reflexivity|].
  split; [discriminate|].
  split; [vm_compute; reflexivity|].
  vm_compute. reflexivity.
Qed.

(** ** Further properties of the decoder and of the report *)

Lemma byte_of_val v : byte_of (byte_val v) = v.
Proof.
  unfold byte_of. pose proof (byte_val_range v) as Hr.
  rewrite Z.mod_small by lia. unfold byte_val.
  rewrite N2Z.id, Byte.of_to_N. reflexivity.
Qed.

Lemma in_all_bytes v : In v all_bytes.
Proof.
  unfold all_bytes. apply in_map_iff. exists (Z.to_nat (byte_val v)).
  pose proof (byte_val_range v) as Hr. split.
  - rewrite Z2Nat.id by lia. apply byte_of_val.
  - apply in_seq. lia.
Qed.

Lemma for_all_bytes (P : byte -> bool) :
  forallb P all_bytes = true -> forall v, P v = true.
Proof. intros H v. rewrite forallb_forall in H. apply H, in_all_bytes. Qed.

Lemma flags_dpad a r :
  Capture (dpad_effect a r) = Capture r /\ Assistant (dpad_effect a r) = Assistant r.
Proof. unfold dpad_effect. destruct a; split; reflexivity. Qed.

(** X1: [ParseReport] only ever adds buttons to the report it is given: a
    button pressed before stays pressed, and the buttons afterwards are the
    old ones together with those of the buffer. Capture, Assistant, sticks
    and triggers are overwritten: they are those of a decode into a fresh
    report. *)
Theorem ParseReport_keeps_old_buttons (buf : list byte) (r : Xbox360ControllerReport) :
  recognized buf ->
  exists s fresh,
    run_ParseReport buf r = Done None s
    /\ decode buf = Some fresh
    /\ (forall j, pressed j (report s) = pressed j r || pressed j fresh)
    /\ Capture (report s) = Capture fresh
    /\ Assistant (report s) = Assistant fresh
    /\ GetLeftThumb (report s) = GetLeftThumb fresh
    /\ GetRightThumb (report s) = GetRightThumb fresh
    /\ GetLeftTrigger (report s) = GetLeftTrigger fresh
    /\ GetRightTrigger (report s) = GetRightTrigger fresh.
Proof.
  intros Hrec.
  destruct (recognized_inv buf Hrec)
    as (a & b & c & d4 & d5 & d6 & d7 & t8 & t9 & rest & ->).
  do 2 eexists. split; [apply ParseReport_recognized|].
  split; [apply decode_recognized|]. cbn [report].
  destruct (sticks_of_effects a b c (bias d4) (bias d5) (bias d6) (bias d7) t8 t9 r)
    as [HL HR].
  destruct (sticks_of_effects a b c (bias d4) (bias d5) (bias d6) (bias d7) t8 t9
              zero_report) as [HL0 HR0].
  rewrite HL, HR, HL0, HR0.
  split; [|unfold triggers_effect, axes_effect; cbn [Capture Assistant SetRightTrigger
             SetLeftTrigger SetRightThumb SetLeftThumb with_native];
           rewrite !(proj1 (flags_dpad a _)), !(proj2 (flags_dpad a _));
           repeat split; reflexivity].
  intros j.
  rewrite !pressed_triggers, !pressed_axes, !pressed_dpad, !pressed_common_buttons,
    pressed_zero_report.
  cbn [orb]. rewrite !orb_assoc. reflexivity.
Qed.

Lemma ParseReport_keeps_old_buttons_witness :
  exists s,
    run_ParseReport [x03; x08; x00; x40; x80; x80; x80; x80; x00; x00]
      (SetButton Xbox360ControllerButtonStart zero_report) = Done None s
    /\ pressed Xbox360ControllerButtonStart (report s) = true
    /\ pressed Xbox360ControllerButtonA (report s) = true.
Proof.
  destruct (ParseReport_keeps_old_buttons
              [x03; x08; x00; x40; x80; x80; x80; x80; x00; x00]
              (SetButton Xbox360ControllerButtonStart zero_report))
    as (s & fresh & Hs & Hf & Hb & _); [split; [reflexivity | simpl; lia]|].
  exists s. split; [exact Hs|].
  vm_compute in Hf. injection Hf as <-.
  rewrite !Hb. split; reflexivity.
Defined.

Lemma thumb_x_facts v :
  -32768 <= thumb_x (bias v) <= 32526 /\ (thumb_x (bias v) = 0 <-> v = x80).
Proof.
  assert (Hb : (-32768 <=? thumb_x (bias v)) && (thumb_x (bias v) <=? 32526)
               && Bool.eqb (thumb_x (bias v) =? 0) (Byte.eqb v x80) = true)
    by (revert v; apply for_all_bytes; vm_compute; reflexivity).
  apply andb_prop in Hb as [Hb Hc]. apply andb_prop in Hb as [H1 H2].
  apply Bool.eqb_prop in Hc. split; [lia|]. split.
  - intros H0. apply Byte.byte_dec_bl. rewrite <- Hc. apply Z.eqb_eq, H0.
  - intros ->. reflexivity.
Qed.

Lemma thumb_y_facts v :
  -32527 <= thumb_y (bias v) <= 32767 /\ (thumb_y (bias v) = 0 <-> v = x80).
Proof.
  assert (Hb : (-32527 <=? thumb_y (bias v)) && (thumb_y (bias v) <=? 32767)
               && Bool.eqb (thumb_y (bias v) =? 0) (Byte.eqb v x80) = true)
    by (revert v; apply for_all_bytes; vm_compute; reflexivity).
  apply andb_prop in Hb as [Hb Hc]. apply andb_prop in Hb as [H1 H2].
  apply Bool.eqb_prop in Hc. split; [lia|]. split.
  - intros H0. apply Byte.byte_dec_bl. rewrite <- Hc. apply Z.eqb_eq, H0.
  - intros ->. reflexivity.
Qed.

Lemma sticks_recognized a b c d4 d5 d6 d7 t8 t9 rest :
  sticks (x03 :: a :: b :: c :: d4 :: d5 :: d6 :: d7 :: t8 :: t9 :: rest)
  = Some ((thumb_x (bias d4), thumb_y (bias d5)),
          (thumb_x (bias d6), thumb_y (bias d7))).
Proof.
  unfold sticks. rewrite decode_recognized. cbn [option_map].
  destruct (sticks_of_effects a b c (bias d4) (bias d5) (bias d6) (bias d7) t8 t9
              zero_report) as [HL HR].
  rewrite HL, HR. reflexivity.
Qed.

(** *** The conversions of the axis block lose nothing *)

(** Whatever the byte, the values that [set_axes] hands to [int16(...)]
    are inside the range of [int16]. *)
Lemma axis_values_fit v :
  fits_int16 (int32 (convertAxisValue v - 0x8000)) = true
  /\ fits_int16 (if int32 (int32 (- convertAxisValue v) + 0x7fff) =? -1 then 0
                 else int32 (int32 (- convertAxisValue v) + 0x7fff)) = true.
Proof.
  assert (Hb : fits_int16 (int32 (convertAxisValue v - 0x8000))
               && fits_int16
                    (if int32 (int32 (- convertAxisValue v) + 0x7fff) =? -1 then 0
                     else int32 (int32 (- convertAxisValue v) + 0x7fff)) = true)
    by (revert v; apply for_all_bytes; vm_compute; reflexivity).
  apply andb_prop in Hb. exact Hb.
Qed.

(** The stick values are those of the same arithmetic on unbounded
    integers. *)
Lemma thumb_exact v :
  thumb_x v = convertAxisValue v - 0x8000
  /\ thumb_y v = (if - convertAxisValue v + 0x7fff =? -1 then 0
                  else - convertAxisValue v + 0x7fff).
Proof.
  assert (Hb : (thumb_x v =? convertAxisValue v - 0x8000)
               && (thumb_y v =? (if - convertAxisValue v + 0x7fff =? -1 then 0
                                 else - convertAxisValue v + 0x7fff)) = true)
    by (revert v; apply for_all_bytes; vm_compute; reflexivity).
  apply andb_prop in Hb as [H1 H2]. split; apply Z.eqb_eq; assumption.
Qed.

Lemma set_axes_trapping_run p0 p1 p2 p3 d4 d5 d6 d7 rest r :
  set_axes_trapping {| data := p0 :: p1 :: p2 :: p3 :: d4 :: d5 :: d6 :: d7 :: rest;
                       report := r |}
  = Done tt {| data := p0 :: p1 :: p2 :: p3 :: d4 :: d5 :: d6 :: d7 :: rest;
               report := axes_effect d4 d5 d6 d7 r |}.
Proof.
  unfold set_axes_trapping, bind, index, on_report, int16_trapping, axes_effect,
    thumb_x, thumb_y.
  cbv zeta. cbn [data report lookup list_lookup].
  rewrite (proj1 (axis_values_fit d4)), (proj2 (axis_values_fit d5)),
    (proj1 (axis_values_fit d6)), (proj2 (axis_values_fit d7)).
  reflexivity.
Qed.

Lemma ParseReport_trapping_recognized a b c d4 d5 d6 d7 t8 t9 rest r :
  run_ParseReport_trapping
    (x03 :: a :: b :: c :: d4 :: d5 :: d6 :: d7 :: t8 :: t9 :: rest) r
  = Done None
      {| data := x03 :: a :: b :: c
                  :: bias d4 :: bias d5 :: bias d6 :: bias d7 :: t8 :: t9 :: rest;
         report :=
           triggers_effect t8 t9
             (axes_effect (bias d4) (bias d5) (bias d6) (bias d7)
               (dpad_effect a (common_buttons_effect b c r))) |}.
Proof.
  unfold run_ParseReport_trapping, ParseReport_trapping.
  unfold bind at 1. unfold len at 1. cbn [data length].
  replace (Z.of_nat _ =? 0) with false by (symmetry; apply Z.eqb_neq; lia).
  unfold bind at 1. unfold index at 1. cbn [data lookup list_lookup].
  replace (10 <=? Z.of_nat _) with true by (symmetry; apply Z.leb_le; lia).
  change (Byte.eqb x03 x03) with true. cbn [andb].
  do 3 (unfold bind at 1; unfold index at 1; cbn [data lookup list_lookup]).
  unfold bind at 1; rewrite update_common_buttons_run.
  unfold bind at 1; rewrite update_dpad_buttons_run.
  unfold bind at 1; cbn [data report]; rewrite normalize_axes_run.
  unfold bind at 1; rewrite set_axes_trapping_run.
  unfold bind at 1. unfold set_triggers, bind, index, on_report, triggers_effect, ret.
  cbn [data report lookup list_lookup].
  reflexivity.
Qed.

(** X2: on a recognized report no [int16(...)] of [ParseReport] wraps: the
    decoder whose conversions panic outside the range of [int16] ends as
    [ParseReport] does, and the stick values are those of the arithmetic on
    unbounded integers. X lies in [-32768 .. 32526] and Y in
    [-32527 .. 32767]; and an axis is at 0 exactly when its raw byte is
    [0x80]. *)
Theorem stick_range_and_centre (buf : list byte) (r : Xbox360ControllerReport)
    (d4 d5 d6 d7 : byte) :
  recognized buf ->
  buf !! 4%nat = Some d4 -> buf !! 5%nat = Some d5 ->
  buf !! 6%nat = Some d6 -> buf !! 7%nat = Some d7 ->
  (exists s,
     run_ParseReport_trapping buf r = Done None s
     /\ run_ParseReport buf r = Done None s)
  /\ exists lx ly rx ry,
       sticks buf = Some ((lx, ly), (rx, ry))
       /\ lx = convertAxisValue (bias d4) - 0x8000
       /\ ly = (if - convertAxisValue (bias d5) + 0x7fff =? -1 then 0
                else - convertAxisValue (bias d5) + 0x7fff)
       /\ rx = convertAxisValue (bias d6) - 0x8000
       /\ ry = (if - convertAxisValue (bias d7) + 0x7fff =? -1 then 0
                else - convertAxisValue (bias d7) + 0x7fff)
       /\ -32768 <= lx <= 32526 /\ -32527 <= ly <= 32767
       /\ -32768 <= rx <= 32526 /\ -32527 <= ry <= 32767
       /\ (lx = 0 <-> d4 = x80) /\ (ly = 0 <-> d5 = x80)
       /\ (rx = 0 <-> d6 = x80) /\ (ry = 0 <-> d7 = x80).
Proof.
  intros Hrec H4 H5 H6 H7.
  destruct (recognized_inv buf Hrec)
    as (a & b & c & e4 & e5 & e6 & e7 & t8 & t9 & rest & ->).
  cbn [lookup list_lookup] in H4, H5, H6, H7.
  injection H4 as ->. injection H5 as ->. injection H6 as ->. injection H7 as ->.
  split.
  { eexists. split; [apply ParseReport_trapping_recognized|].
    apply ParseReport_recognized. }
  do 4 eexists. split; [apply sticks_recognized|].
  destruct (thumb_x_facts d4) as [? ?], (thumb_y_facts d5) as [? ?],
    (thumb_x_facts d6) as [? ?], (thumb_y_facts d7) as [? ?].
  destruct (thumb_exact (bias d4)) as [? _], (thumb_exact (bias d5)) as [_ ?],
    (thumb_exact (bias d6)) as [? _], (thumb_exact (bias d7)) as [_ ?].
  repeat match goal with |- _ /\ _ => split end; assumption || lia.
Qed.

Lemma stick_range_and_centre_witness :
  run_ParseReport_trapping [x03; x08; x00; x00; x80; x80; xff; xff; x00; x00]
    zero_report
  = run_ParseReport [x03; x08; x00; x00; x80; x80; xff; xff; x00; x00] zero_report
  /\ sticks [x03; x08; x00; x00; x80; x80; xff; xff; x00; x00]
     = Some ((0, 0), (32526, -32527)).
Proof.
  destruct (stick_range_and_centre
              [x03; x08; x00; x00; x80; x80; xff; xff; x00; x00] zero_report
              x80 x80 xff xff)
    as ((s & Ht & Hp) & lx & ly & rx & ry & Hs & _);
    [split; [reflexivity | simpl; lia] | reflexivity ..|].
  split; [rewrite Ht, Hp; reflexivity|].
  rewrite Hs. vm_compute in Hs. symmetry. exact Hs.
Defined.

Lemma steps_monotone (g : nat -> Z) (N : nat) :
  (forall n, (n < N)%nat -> g n <= g (S n)) ->
  forall n m, (n <= m)%nat -> (m <= N)%nat -> g n <= g m.
Proof.
  intros Hstep n m Hnm. induction Hnm as [|m Hnm IH]; intros HmN; [lia|].
  specialize (IH ltac:(lia)). specialize (Hstep m ltac:(lia)). lia.
Qed.

Lemma thumb_steps n :
  (n < 255)%nat ->
  thumb_x (bias (byte_of (Z.of_nat n))) <= thumb_x (bias (byte_of (Z.of_nat (S n))))
  /\ - thumb_y (bias (byte_of (Z.of_nat n)))
     <= - thumb_y (bias (byte_of (Z.of_nat (S n)))).
Proof.
  intros Hn.
  assert (Hall : forallb (fun n =>
             (thumb_x (bias (byte_of (Z.of_nat n)))
                <=? thumb_x (bias (byte_of (Z.of_nat (S n)))))
             && (thumb_y (bias (byte_of (Z.of_nat (S n))))
                   <=? thumb_y (bias (byte_of (Z.of_nat n)))))
           (seq 0 255) = true) by (vm_compute; reflexivity).
  rewrite forallb_forall in Hall.
  specialize (Hall n ltac:(apply in_seq; lia)).
  apply andb_prop in Hall as [H1 H2]. lia.
Qed.

Lemma thumb_mono u v :
  byte_val u <= byte_val v ->
  thumb_x (bias u) <= thumb_x (bias v) /\ thumb_y (bias v) <= thumb_y (bias u).
Proof.
  intros Huv.
  pose proof (byte_val_range u) as Hu. pose proof (byte_val_range v) as Hv.
  pose proof (steps_monotone (fun n => thumb_x (bias (byte_of (Z.of_nat n)))) 255
                (fun n Hn => proj1 (thumb_steps n Hn))
                (Z.to_nat (byte_val u)) (Z.to_nat (byte_val v))
                ltac:(lia) ltac:(lia)) as Hx.
  pose proof (steps_monotone (fun n => - thumb_y (bias (byte_of (Z.of_nat n)))) 255
                (fun n Hn => proj2 (thumb_steps n Hn))
                (Z.to_nat (byte_val u)) (Z.to_nat (byte_val v))
                ltac:(lia) ltac:(lia)) as Hy.
  cbv beta in Hx, Hy.
  rewrite !Z2Nat.id, !byte_of_val in Hx, Hy by lia. lia.
Qed.

(** X3: the decoded axes are monotone in the raw bytes: a larger X byte
    never gives a smaller X value, and a larger Y byte never gives a larger
    Y value (Y is inverted), for both sticks. *)
Theorem sticks_monotone (buf buf' : list byte) (i : nat) (u v : byte) :
  recognized buf -> recognized buf' ->
  (4 <= i <= 7)%nat ->
  buf !! i = Some u -> buf' !! i = Some v ->
  byte_val u <= byte_val v ->
  exists lx ly rx ry lx' ly' rx' ry',
    sticks buf = Some ((lx, ly), (rx, ry))
    /\ sticks buf' = Some ((lx', ly'), (rx', ry'))
    /\ (i = 4%nat -> lx <= lx') /\ (i = 5%nat -> ly' <= ly)
    /\ (i = 6%nat -> rx <= rx') /\ (i = 7%nat -> ry' <= ry).
Proof.
  intros Hrec Hrec' Hi Hu Hv Huv.
  destruct (recognized_inv buf Hrec)
    as (a & b & c & d4 & d5 & d6 & d7 & t8 & t9 & rest & ->).
  destruct (recognized_inv buf' Hrec')
    as (a' & b' & c' & e4 & e5 & e6 & e7 & t8' & t9' & rest' & ->).
  do 8 eexists. split; [apply sticks_recognized|]. split; [apply sticks_recognized|].
  repeat split; intros ->; cbn [lookup list_lookup] in Hu, Hv;
    injection Hu as ->; injection Hv as ->; apply (thumb_mono u v Huv).
Qed.

Lemma sticks_monotone_witness :
  exists lx ly rx ry lx' ly' rx' ry',
    sticks [x03; x08; x00; x00; x10; x80; x80; x80; x00; x00]
    = Some ((lx, ly), (rx, ry))
    /\ sticks [x03; x08; x00; x00; xf0; x80; x80; x80; x00; x00]
       = Some ((lx', ly'), (rx', ry'))
    /\ lx <= lx'.
Proof.
  destruct (sticks_monotone
              [x03; x08; x00; x00; x10; x80; x80; x80; x00; x00]
              [x03; x08; x00; x00; xf0; x80; x80; x80; x00; x00] 4 x10 xf0)
    as (lx & ly & rx & ry & lx' & ly' & rx' & ry' & H1 & H2 & H3 & _);
    [split; [reflexivity | simpl; lia] | split; [reflexivity | simpl; lia]
    | lia | reflexivity | reflexivity | vm_compute; congruence |].
  exists lx, ly, rx, ry, lx', ly', rx', ry'.
  split; [exact H1|]. split; [exact H2|]. apply H3. reflexivity.
Defined.

(** X4: a recognized report is decoded from its first ten bytes alone:
    whatever follows is ignored, and the two triggers are bytes 8 and 9 as
    they are. *)
Theorem decode_first_ten_bytes (buf : list byte) (t8 t9 : byte) :
  recognized buf ->
  buf !! 8%nat = Some t8 -> buf !! 9%nat = Some t9 ->
  exists r,
    decode buf = Some r
    /\ decode (take 10 buf) = Some r
    /\ (forall more, decode (take 10 buf ++ more) = Some r)
    /\ GetLeftTrigger r = t8
    /\ GetRightTrigger r = t9.
Proof.
  intros Hrec H8 H9.
  destruct (recognized_inv buf Hrec)
    as (a & b & c & d4 & d5 & d6 & d7 & u8 & u9 & rest & ->).
  cbn [lookup list_lookup] in H8, H9. injection H8 as ->. injection H9 as ->.
  eexists. split; [apply decode_recognized|].
  cbn [take]. rewrite take_0.
  split; [apply decode_recognized|].
  split; [intros more; cbn [app]; apply decode_recognized|].
  split; reflexivity.
Qed.

Lemma decode_first_ten_bytes_witness :
  exists r,
    decode [x03; x08; x00; x00; x80; x80; x80; x80; x10; x20; xaa; xbb] = Some r
    /\ decode [x03; x08; x00; x00; x80; x80; x80; x80; x10; x20] = Some r
    /\ GetLeftTrigger r = x10 /\ GetRightTrigger r = x20.
Proof.
  destruct (decode_first_ten_bytes
              [x03; x08; x00; x00; x80; x80; x80; x80; x10; x20; xaa; xbb] x10 x20)
    as (r & H1 & H2 & _ & H3 & H4);
    [split; [reflexivity | simpl; lia] | reflexivity | reflexivity |].
  exists r. repeat split; assumption.
Defined.

Lemma uint16_shift_out k : 16 <= k -> uint16 (Z.shiftl 1 k) = 0.
Proof.
  intros Hk. unfold uint16. rewrite Z.shiftl_1_l.
  replace k with (16 + (k - 16)) by lia.
  rewrite Z.pow_add_r by lia.
  rewrite Z.mul_comm. apply Z.mod_mul. lia.
Qed.

Lemma report_eq r r' :
  wButtons (native r) = wButtons (native r') ->
  bLeftTrigger (native r) = bLeftTrigger (native r') ->
  bRightTrigger (native r) = bRightTrigger (native r') ->
  sThumbLX (native r) = sThumbLX (native r') ->
  sThumbLY (native r) = sThumbLY (native r') ->
  sThumbRX (native r) = sThumbRX (native r') ->
  sThumbRY (native r) = sThumbRY (native r') ->
  Capture r = Capture r' -> Assistant r = Assistant r' ->
  r = r'.
Proof.
  destruct r as [[] ? ?], r' as [[] ? ?]. cbn. intros; subst. reflexivity.
Qed.

(** X5: [SetButton] composes as setting a bit does: setting a button twice
    is setting it once, the order of two buttons does not matter, a pressed
    button is never released, the button set reads back pressed and no
    other button changes; and a shift of 16 or more sets nothing, since the
    shift is taken in 16 bits. *)
Theorem SetButton_composes (j k : Z) (r : Xbox360ControllerReport) :
  0 <= j < 16 -> 0 <= k < 16 ->
  SetButton k (SetButton k r) = SetButton k r
  /\ SetButton j (SetButton k r) = SetButton k (SetButton j r)
  /\ pressed k (SetButton k r) = true
  /\ (forall i, pressed i r = true -> pressed i (SetButton k r) = true)
  /\ (forall i, i <> k -> pressed i (SetButton k r) = pressed i r)
  /\ (forall big, 16 <= big -> SetButton big r = r).
Proof.
  intros Hj Hk. repeat split.
  - apply report_eq; try reflexivity. cbn.
    rewrite <- Z.lor_assoc, Z.lor_diag. reflexivity.
  - apply report_eq; try reflexivity. cbn.
    rewrite <- !Z.lor_assoc. f_equal. apply Z.lor_comm.
  - rewrite pressed_SetButton by exact Hk. rewrite Z.eqb_refl. apply orb_true_r.
  - intros i Hi. rewrite pressed_SetButton, Hi by exact Hk. reflexivity.
  - intros i Hi. rewrite pressed_SetButton by exact Hk.
    destruct (Z.eqb_spec k i); [congruence | apply orb_false_r].
  - intros big Hbig. apply report_eq; try reflexivity. cbn.
    rewrite (uint16_shift_out big Hbig). apply Z.lor_0_r.
Qed.

Lemma SetButton_composes_witness :
  SetButton Xbox360ControllerButtonA
    (SetButton Xbox360ControllerButtonGuide zero_report)
  = SetButton Xbox360ControllerButtonGuide
      (SetButton Xbox360ControllerButtonA zero_report)
  /\ SetButton 16 zero_report = zero_report.
Proof.
  destruct (SetButton_composes Xbox360ControllerButtonA Xbox360ControllerButtonGuide
              zero_report) as (_ & H1 & _ & _ & _ & H2);
    [cbv; split; [congruence | reflexivity] ..|].
  split; [exact H1 | apply H2; lia].
Defined.

(** ** Further properties of the device session *)

Lemma decode_Some buf r :
  decode buf = Some r -> exists s, run_ParseReport buf zero_report = Done None s /\ report s = r.
Proof.
  unfold decode. destruct (run_ParseReport buf zero_report) as [[e|] s|];
    [discriminate | intros [= <-]; eauto | discriminate].
Qed.

(** X6: with a device installed and a recognized report at the head of its
    queue (the channel closed or not), [GetReport] returns the decoding of
    that report and no error; it takes just that report off the queue,
    leaves the device installed and untouched otherwise, and logs
    nothing. *)
Theorem GetReport_decodes_oldest (w : world) (d : winDevice)
    (buf : list byte) (queue : list (list byte)) :
  device (controller w) = Some d ->
  readCh d = buf :: queue ->
  recognized buf ->
  exists r w',
    GetReport w = Returned r None w'
    /\ decode buf = Some r
    /\ device (controller w')
       = Some {| info := info d; handle_valid := handle_valid d; readCh := queue;
                 readCh_closed := readCh_closed d; readErr := readErr d |}
    /\ err (controller w') = err (controller w)
    /\ scanning w' = scanning w
    /\ trace w' = trace w ++ [IoReceive (Path (info d)) buf].
Proof.
  intros Hd Hq Hrec.
  destruct (ParseReport_cases buf zero_report) as [[-> _]|[(_ & Hn & _)|(_ & _ & s & Hs)]].
  - destruct Hrec as [[=] _].
  - contradiction.
  - exists (report s). eexists. split.
    { unfold GetReport, receive. rewrite Hd, Hq, Hs. reflexivity. }
    split; [unfold decode; rewrite Hs; reflexivity|].
    repeat split.
Qed.

Lemma GetReport_decodes_oldest_witness :
  exists r w',
    GetReport (run [Tick plugged_in;
                    Deliver [x03; x00; x00; x00; x00; x00; x00; x00; x10; x20];
                    Deliver [x03; x04; x00; x00; x80; x80; x80; x80; x00; x00]]
                 NewStadiaController)
    = Returned r None w'
    /\ dpad_of r = (true, false, false, false).
Proof.
  destruct (GetReport_decodes_oldest
              (run [Tick plugged_in;
                    Deliver [x03; x00; x00; x00; x00; x00; x00; x00; x10; x20];
                    Deliver [x03; x04; x00; x00; x80; x80; x80; x80; x00; x00]]
                 NewStadiaController)
              {| info := sample_info; handle_valid := true;
                 readCh := [[x03; x00; x00; x00; x00; x00; x00; x00; x10; x20];
                            [x03; x04; x00; x00; x80; x80; x80; x80; x00; x00]];
                 readCh_closed := false; readErr := None |}
              [x03; x00; x00; x00; x00; x00; x00; x00; x10; x20]
              [[x03; x04; x00; x00; x80; x80; x80; x80; x00; x00]])
    as (r & w' & Hg & Hdec & _);
    [reflexivity | reflexivity | split; [reflexivity | simpl; lia] |].
  exists r, w'. split; [exact Hg|].
  vm_compute in Hdec. injection Hdec as <-. reflexivity.
Defined.

(** X7: [GetReport] never panics, whatever the device has queued, and it
    waits exactly when a device is installed whose channel is empty and
    still open. *)
Theorem GetReport_returns_or_waits (w : world) :
  GetReport w <> Panicked
  /\ (GetReport w = Blocked
      <-> exists d, device (controller w) = Some d
                    /\ readCh d = [] /\ readCh_closed d = false).
Proof.
  unfold GetReport, receive.
  destruct (device (controller w)) as [d|] eqn:Hd.
  - destruct (readCh d) as [|buf queue] eqn:Hq.
    + destruct (readCh_closed d) eqn:Hc.
      * split; [discriminate|]. split; [discriminate|].
        intros (d' & [= <-] & _ & Hc'). congruence.
      * split; [discriminate|]. split; [|reflexivity].
        intros _. exists d. repeat split; assumption.
    + pose proof (ParseReport_cases buf zero_report) as Hcases.
      destruct Hcases as [[_ H]|[(_ & _ & H)|(_ & _ & s & H)]]; rewrite H;
        (split; [discriminate|]); (split; [discriminate|]);
        intros (d' & [= <-] & Hq' & _); congruence.
  - split; [discriminate|]. split; [discriminate|].
    intros (d' & [=] & _).
Qed.

Lemma readThread_send_open buf d :
  readCh_closed d = false -> (length (readCh d) <= 30)%nat ->
  readCh_closed (readThread_send buf d) = false
  /\ (length (readCh (readThread_send buf d)) <= 30)%nat
  /\ readCh (readThread_send buf d) = take 30 (readCh d ++ [buf])
  /\ info (readThread_send buf d) = info d
  /\ handle_valid (readThread_send buf d) = handle_valid d
  /\ readErr (readThread_send buf d) = readErr d.
Proof.
  intros Hc Hl. unfold readThread_send. rewrite Hc.
  destruct (Nat.ltb_spec (length (readCh d)) 30) as [Hlt|Hge]; cbn.
  - assert (Hlen : (length (readCh d ++ [buf]) <= 30)%nat)
      by (rewrite length_app; cbn [length]; lia).
    rewrite firstn_all2 by exact Hlen.
    repeat split; exact Hlen.
  - rewrite take_app_length' by lia. repeat split; assumption.
Qed.

(** X8: the channel of the read thread is a queue of at most 30 reports that
    drops what arrives when it is full: after the thread has offered the
    reports [bufs] in order, the channel holds the first 30 of what was
    queued followed by [bufs]; the queued reports keep their order and
    the device is otherwise unchanged. *)
Theorem readThread_queue_bounded (bufs : list (list byte)) (d : winDevice) :
  readCh_closed d = false ->
  (length (readCh d) <= 30)%nat ->
  readCh (readThread_sends bufs d) = take 30 (readCh d ++ bufs)
  /\ (length (readCh (readThread_sends bufs d)) <= 30)%nat
  /\ readCh_closed (readThread_sends bufs d) = false
  /\ info (readThread_sends bufs d) = info d
  /\ handle_valid (readThread_sends bufs d) = handle_valid d
  /\ readErr (readThread_sends bufs d) = readErr d.
Proof.
  unfold readThread_sends. revert d.
  induction bufs as [|buf bufs IH]; intros d Hc Hl; cbn [fold_left].
  - rewrite app_nil_r, firstn_all2 by lia. repeat split; assumption || lia.
  - destruct (readThread_send_open buf d Hc Hl) as (Hc' & Hl' & Hq' & Hi' & Hh' & He').
    destruct (IH _ Hc' Hl') as (Hq & Hl2 & Hc2 & Hi & Hh & He).
    split; [|repeat split; [exact Hl2 | exact Hc2 | congruence ..]].
    rewrite Hq, Hq'.
    destruct (Nat.le_gt_cases 30 (length (readCh d))) as [Hfull|Hroom].
    + rewrite !(take_app_length' (readCh d)) by lia. reflexivity.
    + rewrite (firstn_all2 (readCh d ++ [buf]))
        by (rewrite length_app; cbn [length]; lia).
      rewrite <- app_assoc. reflexivity.
Qed.

Lemma readThread_queue_bounded_witness :
  readCh (readThread_sends (replicate 31 [x03]) (opened sample_info))
  = replicate 30 [x03].
Proof.
  destruct (readThread_queue_bounded (replicate 31 [x03]) (opened sample_info))
    as [H _]; [reflexivity | simpl; lia |].
  rewrite H. reflexivity.
Defined.

(** X9: a completed read of [n] bytes ([0 < n], at most the buffer) never
    panics and offers one report to the channel: the first [n] bytes when
    the buffer starts with a report number, and the [n - 1] bytes after the
    leading zero when it does not. A frame that starts with [0x03] and has
    at least ten bytes is queued as a report that [ParseReport]
    recognizes. *)
Theorem readThread_round_frames (buf : list byte) (n : Z) (d : winDevice)
    (first : byte) (rest : list byte) :
  buf = first :: rest ->
  0 < n <= Z.of_nat (length buf) ->
  readThread_round (ReadCompleted buf n) d
  = Some (readThread_send
            (if Byte.eqb first x00 then take (Z.to_nat (n - 1)) rest
             else take (Z.to_nat n) buf) d)
  /\ (first = x03 -> 10 <= n -> recognized (take (Z.to_nat n) buf)).
Proof.
  intros -> Hn. cbn [length] in Hn. split.
  - unfold readThread_round.
    destruct (Z.eqb_spec n 0) as [->|_]; [lia|].
    destruct (Byte.eqb first x00).
    + replace ((0 <=? n - 1) && (n - 1 <=? Z.of_nat (length rest))) with true
        by (symmetry; apply andb_true_iff; split; apply Z.leb_le; lia).
      reflexivity.
    + replace ((0 <=? n) && (n <=? Z.of_nat (length (first :: rest)))) with true
        by (symmetry; apply andb_true_iff; split; apply Z.leb_le; cbn [length]; lia).
      reflexivity.
  - intros -> Hten. split.
    + replace (Z.to_nat n) with (S (Z.to_nat (n - 1))) by lia. reflexivity.
    + rewrite length_take. cbn [length]. lia.
Qed.

Lemma readThread_round_frames_witness :
  readThread_round
    (ReadCompleted [x03; x08; x00; x00; x80; x80; x80; x80; x00; x00; x00] 10)
    (opened sample_info)
  = Some {| info := sample_info; handle_valid := true;
            readCh := [[x03; x08; x00; x00; x80; x80; x80; x80; x00; x00]];
            readCh_closed := false; readErr := None |}.
Proof.
  destruct (readThread_round_frames
              [x03; x08; x00; x00; x80; x80; x80; x80; x00; x00; x00] 10
              (opened sample_info) x03
              [x08; x00; x00; x80; x80; x80; x80; x00; x00; x00])
    as [H _]; [reflexivity | simpl; lia |].
  rewrite H. reflexivity.
Defined.

(** X10: a round of the read thread that fails closes the channel and
    ends the thread without panicking; the reports already queued stay
    readable, and the first error recorded wins: an error set before (such
    as the one that closing the device sets) is kept, otherwise the error
    of this round is recorded. *)
Theorem readThread_first_error_wins (io : read_io) (d : winDevice) :
  read_fails io = true ->
  readCh_closed d = false ->
  exists d',
    readThread_round io d = Some d'
    /\ readCh_closed d' = true
    /\ readCh d' = readCh d
    /\ info d' = info d /\ handle_valid d' = handle_valid d
    /\ readErr d' <> None
    /\ (forall e0, readErr d = Some e0 -> readErr d' = Some e0)
    /\ (readErr d = None ->
        readErr d' =
        Some (match io with
              | ReadFileFailed e => e
              | WaitFailed res =>
                  ErrorMessage ("hid: unexpected read wait state " ++ decimal res)
              | OverlappedFailed =>
                  ErrorMessage "hid: unexpected read result state 0"
              | ReadCompleted _ _ => ErrorMessage "hid: zero byte read"
              end)).
Proof.
  intros Hio Hc.
  assert (Hfail : forall e,
            readCh_closed (readThread_fail e d) = true
            /\ readCh (readThread_fail e d) = readCh d
            /\ info (readThread_fail e d) = info d
            /\ handle_valid (readThread_fail e d) = handle_valid d
            /\ readErr (readThread_fail e d) <> None
            /\ (forall e0, readErr d = Some e0 -> readErr (readThread_fail e d) = Some e0)
            /\ (readErr d = None -> readErr (readThread_fail e d) = Some e)).
  { intros e. unfold readThread_fail. rewrite Hc. cbn.
    destruct (readErr d) as [e0|]; repeat split; congruence. }
  destruct io as [e|res| |buf n]; cbn [read_fails] in Hio;
    unfold readThread_round; try rewrite Hio;
    eexists; (split; [reflexivity|]); apply Hfail.
Qed.

Lemma readThread_first_error_wins_witness :
  exists d',
    readThread_round (WaitFailed 258) (winDevice_Close (opened sample_info)) = Some d'
    /\ readCh_closed d' = true
    /\ readErr d' = Some (ErrorMessage "hid: device closed").
Proof.
  destruct (readThread_first_error_wins (WaitFailed 258)
              (winDevice_Close (opened sample_info)))
    as (d' & H1 & H2 & _ & _ & _ & _ & H3 & _); [reflexivity | reflexivity |].
  exists d'. split; [exact H1|]. split; [exact H2|]. apply H3. reflexivity.
Defined.

Lemma output_report_take (d : winDevice) (buf : list byte) :
  output_report d buf = take (outSize d) (buf ++ replicate (outSize d) x00).
Proof.
  unfold output_report. fold (outSize d).
  destruct (Nat.eqb_spec (length buf) (outSize d)) as [Heq|Hne]; [|reflexivity].
  rewrite take_app_length' by congruence. reflexivity.
Qed.

(** X11: the report that [Write] hands to the system always has the
    device's output length: it is the given bytes followed by zeros, cut to
    that length (bytes beyond it are lost). *)
Theorem output_report_padded (d : winDevice) (buf : list byte) :
  output_report d buf = take (outSize d) (buf ++ replicate (outSize d) x00)
  /\ length (output_report d buf) = outSize d
  /\ take (length buf) (output_report d buf) = take (outSize d) buf.
Proof.
  rewrite (output_report_take d buf). split; [reflexivity|]. split.
  - rewrite length_take, length_app, length_replicate. lia.
  - rewrite take_take, take_app.
    destruct (Nat.le_gt_cases (outSize d) (length buf)) as [Hle|Hgt].
    + rewrite Nat.min_r by lia. replace (outSize d - length buf)%nat with O by lia.
      rewrite take_0, app_nil_r. reflexivity.
    + rewrite Nat.min_l by lia. replace (length buf - length buf)%nat with O by lia.
      rewrite take_0, app_nil_r. rewrite !firstn_all2 by lia. reflexivity.
Qed.

(** X12: [Vibrate] never changes the controller or the supervisor. With no
    device it touches nothing and returns the recorded enumeration error
    (no error at all when none is recorded); with a device it makes exactly
    one write, of the command [05 L L S S] brought to the device's output
    length, and returns what the write answers. *)
Theorem Vibrate_one_write (largeMotor smallMotor : byte) (written : option error)
    (w : world) :
  controller (snd (Vibrate largeMotor smallMotor written w)) = controller w
  /\ scanning (snd (Vibrate largeMotor smallMotor written w)) = scanning w
  /\ match device (controller w) with
     | None =>
         Vibrate largeMotor smallMotor written w = (err (controller w), w)
     | Some d =>
         fst (Vibrate largeMotor smallMotor written w) = written
         /\ trace (snd (Vibrate largeMotor smallMotor written w))
            = trace w ++
              [IoWrite (Path (info d))
                 (take (outSize d)
                    ([x05; largeMotor; largeMotor; smallMotor; smallMotor]
                       ++ replicate (outSize d) x00))]
     end.
Proof.
  unfold Vibrate. destruct (device (controller w)) as [d|] eqn:Hd; cbn.
  - rewrite (output_report_take d _). repeat split.
  - repeat split.
Qed.

(** X13: a scan opens at most one device, the first of the enumeration
    with the Stadia vendor and product identifiers: devices before it are
    not touched and devices after it are not looked at, even when the open
    fails; an enumeration without such a device changes nothing. *)
Theorem scan_devices_first_match (p : platform) (devices : list DeviceInfo)
    (w : world) :
  (forallb (fun di => negb (is_stadia di)) devices = true ->
   scan_devices p devices w = w)
  /\ (forall before di after,
        devices = before ++ di :: after ->
        forallb (fun di => negb (is_stadia di)) before = true ->
        is_stadia di = true ->
        scan_devices p devices w
        = match Open p di with
          | inl openDevice =>
              {| controller := {| device := Some openDevice;
                                  ticker_stopped := ticker_stopped (controller w);
                                  err := err (controller w) |};
                 scanning := scanning w;
                 trace := trace w ++ [IoOpen (Path di); LogOpened (Path di)] |}
          | inr e =>
              {| controller := controller w; scanning := scanning w;
                 trace := trace w ++ [IoOpen (Path di); LogCannotOpen (Path di) e] |}
          end).
Proof.
  split.
  - induction devices as [|x rest IH]; cbn [forallb scan_devices]; [reflexivity|].
    intros [Hx Hrest]%andb_prop. apply negb_true_iff in Hx.
    unfold is_stadia in Hx. rewrite Hx. apply IH, Hrest.
  - intros before di after -> Hbefore Hdi.
    induction before as [|x rest IH]; cbn [app forallb scan_devices] in *.
    + unfold is_stadia in Hdi. rewrite Hdi. destruct (Open p di); reflexivity.
    + apply andb_prop in Hbefore as [Hx Hrest]. apply negb_true_iff in Hx.
      unfold is_stadia in Hx. rewrite Hx. apply IH, Hrest.
Qed.

Lemma scan_devices_first_match_witness :
  scan_devices plugged_in [sample_mouse; sample_info; sample_info] NewStadiaController
  = {| controller := {| device := Some (opened sample_info); ticker_stopped := false;
                        err := None |};
       scanning := true;
       trace := [IoOpen (Path sample_info); LogOpened (Path sample_info)] |}
  /\ scan_devices plugged_in [sample_mouse; sample_mouse] NewStadiaController
     = NewStadiaController.
Proof.
  split.
  - apply (proj2 (scan_devices_first_match plugged_in
                    [sample_mouse; sample_info; sample_info] NewStadiaController)
             [sample_mouse] sample_info [sample_info]); reflexivity.
  - apply (proj1 (scan_devices_first_match plugged_in [sample_mouse; sample_mouse]
                    NewStadiaController)).
    reflexivity.
Defined.

(** ** Invariants of a run *)



Lemma hid_platform_plugged_in : hid_platform plugged_in.
Proof.
  split; [eexists; reflexivity|].
  intros di d [= <-]. reflexivity.
Qed.






Lemma step_no_fault a w :
  hid_action a -> err (controller w) = None -> err (controller (step a w)) = None.
Proof.
  intros Ha He. destruct a as [p| |l s written|buf|e|]; cbn [step hid_action] in *.
  - unfold tick.
    destruct (negb (scanning w) || ticker_stopped (controller w)); [exact He|].
    destruct (device (controller w)); [exact He|]. rewrite He.
    destruct Ha as [[devices ->] _].
    apply scan_devices_device_excludes_fault. exact He.
  - unfold GetReport. destruct (device (controller w)) as [d|]; [|exact He].
    destruct (receive d) as [b d'| |]; [|exact He|exact He].
    destruct (run_ParseReport b zero_report) as [[e|] s|]; exact He.
  - unfold Vibrate. destruct (device (controller w)); exact He.
  - unfold on_device. destruct (device (controller w)); exact He.
  - unfold on_device. destruct (device (controller w)); exact He.
  - unfold Close. destruct (device (controller w)); exact He.
Qed.

Lemma run_no_fault actions w :
  Forall hid_action actions -> err (controller w) = None ->
  err (controller (run actions w)) = None.
Proof.
  intros Hall. revert w.
  induction Hall as [|a rest Ha _ IH]; intros w Hw; cbn [run]; [exact Hw|].
  apply IH, step_no_fault; assumption.
Qed.

(** X15: the enumeration of [hid.go] never returns an error, so on that
    platform no fault is ever recorded, and the only error that
    [GetReport] ever returns is [RetryError]. *)
Theorem reads_fail_only_with_retry (found : list (option DeviceInfo))
    (actions : list action) :
  Forall hid_action actions ->
  (exists devices, hid_Devices found = inl devices)
  /\ err (controller (run actions NewStadiaController)) = None
  /\ forall r e w',
       GetReport (run actions NewStadiaController) = Returned r (Some e) w' ->
       e = RetryError.
Proof.
  intros Hall. split.
  { induction found as [|details rest [devices IH]]; cbn [hid_Devices].
    - eexists; reflexivity.
    - rewrite IH. eexists; reflexivity. }
  pose proof (run_no_fault actions NewStadiaController Hall eq_refl) as He.
  split; [exact He|].
  intros r e w'. unfold GetReport. rewrite He.
  destruct (device (controller (run actions NewStadiaController))) as [d|];
    [|intros [= _ <- _]; reflexivity].
  destruct (receive d) as [b d'| |]; [|intros [= _ <- _]; reflexivity|discriminate].
  destruct (run_ParseReport b zero_report) as [[e0|] s|];
    [intros [= _ <- _]; reflexivity | discriminate | discriminate].
Qed.

Lemma reads_fail_only_with_retry_witness :
  err (controller (run [Tick plugged_in; Deliver [x01; x02]] NewStadiaController))
  = None
  /\ exists r e w',
       GetReport (run [Tick plugged_in; Deliver [x01; x02]] NewStadiaController)
       = Returned r (Some e) w'
       /\ e = RetryError.
Proof.
  destruct (reads_fail_only_with_retry [Some sample_info]
              [Tick plugged_in; Deliver [x01; x02]]) as (_ & H1 & H2);
    [repeat constructor; apply hid_platform_plugged_in|].
  split; [exact H1|].
  assert (Hg : exists r e w',
             GetReport (run [Tick plugged_in; Deliver [x01; x02]] NewStadiaController)
             = Returned r (Some e) w') by (do 3 eexists; vm_compute; reflexivity).
  destruct Hg as (r & e & w' & Hg).
  exists r, e, w'. split; [exact Hg | exact (H2 r e w' Hg)].
Defined.

(** ** Properties of the main loop *)

Lemma runButtonPress_out cfg start pressed ifPressed ifReleased :
  sent_reports (snd (runButtonPress cfg start pressed ifPressed ifReleased)) = [].
Proof.
  unfold runButtonPress, runCommand.
  destruct (pressed && negb (ifPressed =? ""))%string; [reflexivity|].
  destruct (negb pressed && negb (ifReleased =? ""))%string; reflexivity.
Qed.

Lemma sent_reports_app out out' :
  sent_reports (out ++ out') = sent_reports out ++ sent_reports out'.
Proof.
  induction out as [|[|r|sh cmd] out IH]; cbn [sent_reports app];
    [reflexivity | exact IH | rewrite IH; reflexivity | exact IH].
Qed.

(** What an iteration that goes on leaves behind. *)
Lemma loop_body_Continue cfg start st r e sent st' out :
  loop_body cfg start st (r, e) sent = Continue st' out ->
  match e with
  | Some e0 => e0 = RetryError /\ st' = st /\ out = [Slept]
  | None => sent = None /\ st' = flags_of r /\ sent_reports out = [r]
  end.
Proof.
  unfold loop_body.
  destruct e as [e0|].
  { destruct e0; cbn [is_RetryError]; [|discriminate ..].
    intros [= <- <-]. repeat split. }
  destruct sent as [e1|]; [discriminate|].
  destruct st as [sa sc]. cbn [assistantPressed capturePressed].
  destruct (runButtonPress cfg start (Assistant r) (onAssistantPressed cfg)
              (onAssistantReleased cfg)) as [ea oa] eqn:Ha.
  destruct (runButtonPress cfg start (Capture r) (onCapturePressed cfg)
              (onCaptureReleased cfg)) as [ec oc] eqn:Hc.
  pose proof (runButtonPress_out cfg start (Assistant r) (onAssistantPressed cfg)
                (onAssistantReleased cfg)) as Hoa. rewrite Ha in Hoa. cbn [snd] in Hoa.
  pose proof (runButtonPress_out cfg start (Capture r) (onCapturePressed cfg)
                (onCaptureReleased cfg)) as Hoc. rewrite Hc in Hoc. cbn [snd] in Hoc.
  unfold flags_of.
  destruct (Bool.eqb (Assistant r) sa) eqn:Ea; cbn [negb];
    [apply Bool.eqb_prop in Ea as <-|];
    cbn [assistantPressed capturePressed]; try rewrite Ha;
    [|destruct ea; [discriminate|]];
    (destruct (Bool.eqb (Capture r) sc) eqn:Ec; cbn [negb];
     [apply Bool.eqb_prop in Ec as <-|]);
    cbn [assistantPressed capturePressed]; try rewrite Hc;
    try (destruct ec; [discriminate|]);
    intros [= <- <-]; (split; [reflexivity|]); (split; [reflexivity|]);
    cbn [sent_reports]; rewrite ?sent_reports_app, ?Hoa, ?Hoc; reflexivity.
Qed.

(** X16: while the loop of [run] goes on, the two flags it keeps are those
    of the last report it received, and every report received without
    error has been sent to the emulated controller, once and in order;
    iterations that end in [RetryError] send nothing. *)
Theorem loop_tracks_last_report (cfg : flags) (start : string -> option error)
    (st st' : loop_state) (out : list main_event)
    (answers : list (Xbox360ControllerReport * option error * option error)) :
  loop_from cfg start st answers = (None, st', out) ->
  st' = last_flags st answers
  /\ sent_reports out = received_reports answers.
Proof.
  revert st st' out.
  induction answers as [|[[r e] sent] rest IH]; intros st st' out;
    cbn [loop_from last_flags fold_left received_reports].
  - intros [= <- <-]. split; reflexivity.
  - destruct (loop_body cfg start st (r, e) sent) as [st1 out1|e1 out1] eqn:Hb;
      [|discriminate].
    destruct (loop_from cfg start st1 rest) as [[e2 st2] out2] eqn:Hrest.
    intros [= -> <- <-].
    destruct (IH _ _ _ Hrest) as [Hst Hout].
    apply loop_body_Continue in Hb.
    rewrite sent_reports_app, Hout.
    destruct e as [e0|].
    + destruct Hb as (_ & -> & ->). split; [exact Hst | reflexivity].
    + destruct Hb as (_ & -> & ->). split; [exact Hst | reflexivity].
Qed.

Lemma loop_tracks_last_report_witness :
  loop_from sample_flags (fun _ => None) initial_loop_state
    [((zero_report, Some RetryError), None); ((capture_report, None), None)]
  = (None, {| assistantPressed := false; capturePressed := true |},
     [Slept; Sent capture_report; Started "pwsh" "sharex -PrintScreen"])
  /\ {| assistantPressed := false; capturePressed := true |}
     = last_flags initial_loop_state
         [((zero_report, Some RetryError), None); ((capture_report, None), None)].
Proof.
  split; [reflexivity|].
  apply (loop_tracks_last_report sample_flags (fun _ => None) initial_loop_state
           {| assistantPressed := false; capturePressed := true |}
           [Slept; Sent capture_report; Started "pwsh" "sharex -PrintScreen"]
           [((zero_report, Some RetryError), None); ((capture_report, None), None)]).
  reflexivity.
Defined.

Lemma loop_body_steady cfg start st r e sent :
  (e = None -> flags_of r = st) ->
  loop_body cfg start st (r, e) sent
  = match e with
    | Some e0 => if is_RetryError e0 then Continue st [Slept] else Return e0 []
    | None =>
        match sent with
        | Some e1 => Return e1 [Sent r]
        | None => Continue st [Sent r]
        end
    end.
Proof.
  intros H. unfold loop_body. destruct e as [e0|]; [reflexivity|].
  destruct sent as [e1|]; [reflexivity|].
  specialize (H eq_refl). subst st. unfold flags_of.
  cbn [assistantPressed capturePressed]. rewrite Bool.eqb_reflx.
  cbn [negb assistantPressed capturePressed]. rewrite Bool.eqb_reflx. reflexivity.
Qed.

(** X17: commands are started on changes only: as long as every report
    received shows the flags that the loop holds (Assistant and Capture are
    not touched), the loop starts no command at all, however many reports
    arrive, and its flags stay as they are. *)
Theorem no_command_without_change (cfg : flags) (start : string -> option error)
    (st : loop_state)
    (answers : list (Xbox360ControllerReport * option error * option error)) :
  Forall (shows st) answers ->
  snd (fst (loop_from cfg start st answers)) = st
  /\ forallb (fun ev => negb (is_started ev)) (snd (loop_from cfg start st answers))
     = true.
Proof.
  induction 1 as [|[[r e] sent] rest Ha _ IH]; cbn [loop_from]; [split; reflexivity|].
  unfold shows in Ha. cbn [fst snd] in Ha.
  rewrite (loop_body_steady cfg start st r e sent Ha).
  destruct e as [e0|]; [destruct (is_RetryError e0)|destruct sent as [e1|]];
    try (split; reflexivity);
    destruct (loop_from cfg start st rest) as [[e2 st2] out2];
    cbn [fst snd] in IH; destruct IH as [-> Hout];
    cbn [fst snd forallb app is_started negb andb]; split; reflexivity || exact Hout.
Qed.

Lemma no_command_without_change_witness :
  snd (fst (loop_from sample_flags (fun _ => None) initial_loop_state
              [((zero_report, None), None); ((zero_report, Some RetryError), None);
               ((zero_report, None), None)]))
  = initial_loop_state
  /\ forallb (fun ev => negb (is_started ev))
       (snd (loop_from sample_flags (fun _ => None) initial_loop_state
               [((zero_report, None), None); ((zero_report, Some RetryError), None);
                ((zero_report, None), None)]))
     = true.
Proof.
  apply (no_command_without_change sample_flags (fun _ => None) initial_loop_state).
  repeat (constructor; [intros _; reflexivity|]). constructor.
Defined.

Lemma runButtonPress_started cfg start pressed ifPressed ifReleased :
  (forall cmd, start cmd = None) ->
  runButtonPress cfg start pressed ifPressed ifReleased
  = (None,
     map (Started (shell cfg))
       (if pressed then (if String.eqb ifPressed "" then [] else [ifPressed])
        else (if String.eqb ifReleased "" then [] else [ifReleased]))).
Proof.
  intros Hs. unfold runButtonPress, runCommand. rewrite !Hs.
  destruct pressed; cbn [andb negb];
    [destruct (String.eqb ifPressed "") | destruct (String.eqb ifReleased "")];
    reflexivity.
Qed.

(** X18: when the read and the send succeed and commands start, an
    iteration sends the report first and then starts, for Assistant and
    after that for Capture, the command configured for the change of that
    button (pressed or released), and only if the button changed and the
    command is not empty; the loop goes on with the flags of the report. *)
Theorem loop_body_edges (cfg : flags) (start : string -> option error)
    (st : loop_state) (r : Xbox360ControllerReport) :
  (forall cmd, start cmd = None) ->
  loop_body cfg start st (r, None) None
  = Continue (flags_of r)
      (Sent r ::
       map (Started (shell cfg))
         (edge_commands (assistantPressed st) (Assistant r)
            (onAssistantPressed cfg) (onAssistantReleased cfg)
          ++ edge_commands (capturePressed st) (Capture r)
               (onCapturePressed cfg) (onCaptureReleased cfg))).
Proof.
  intros Hs. unfold loop_body, edge_commands, flags_of.
  destruct st as [sa sc]. cbn [assistantPressed capturePressed].
  destruct (Assistant r), sa, (Capture r), sc;
    cbn [Bool.eqb negb assistantPressed capturePressed];
    rewrite ?(runButtonPress_started cfg start _ _ _ Hs);
    cbn [Bool.eqb negb assistantPressed capturePressed];
    rewrite ?(runButtonPress_started cfg start _ _ _ Hs);
    cbn [app map]; rewrite ?map_app, ?app_nil_r; reflexivity.
Qed.

Lemma loop_body_edges_witness :
  loop_body sample_flags (fun _ => None) initial_loop_state (capture_report, None) None
  = Continue {| assistantPressed := false; capturePressed := true |}
      [Sent capture_report; Started "pwsh" "sharex -PrintScreen"].
Proof.
  rewrite (loop_body_edges sample_flags (fun _ => None) initial_loop_state capture_report)
    by reflexivity.
  reflexivity.
Defined.

Lemma loop_body_continues cfg start st r :
  (forall cmd, start cmd = None) ->
  exists st1 out1, loop_body cfg start st (r, None) None = Continue st1 out1.
Proof.
  intros Hs. unfold loop_body.
  destruct st as [sa sc]. cbn [assistantPressed capturePressed].
  destruct (Assistant r), sa, (Capture r), sc;
    cbn [Bool.eqb negb assistantPressed capturePressed];
    rewrite ?(runButtonPress_started cfg start _ _ _ Hs);
    cbn [Bool.eqb negb assistantPressed capturePressed];
    rewrite ?(runButtonPress_started cfg start _ _ _ Hs);
    eauto.
Qed.

(** X19: the loop ends only on a failure that is not a retry: as long as
    every read gives a report or [RetryError], every send succeeds and
    every command starts, the loop never returns. *)
Theorem loop_goes_on (cfg : flags) (start : string -> option error)
    (st : loop_state)
    (answers : list (Xbox360ControllerReport * option error * option error)) :
  (forall cmd, start cmd = None) ->
  Forall benign answers ->
  fst (fst (loop_from cfg start st answers)) = None.
Proof.
  intros Hs Hall. revert st.
  induction Hall as [|[[r e] sent] rest [Hsent He] _ IH]; intros st; cbn [loop_from];
    [reflexivity|].
  cbn [fst snd] in Hsent, He. subst sent.
  assert (Hb : exists st1 out1, loop_body cfg start st (r, e) None = Continue st1 out1).
  { destruct He as [->| ->].
    - apply loop_body_continues, Hs.
    - cbn. eauto. }
  destruct Hb as (st1 & out1 & ->).
  specialize (IH st1). destruct (loop_from cfg start st1 rest) as [[e2 st2] out2].
  exact IH.
Qed.

Lemma loop_goes_on_witness :
  fst (fst (loop_from sample_flags (fun _ => None) initial_loop_state
              [((zero_report, Some RetryError), None); ((capture_report, None), None);
               ((zero_report, None), None)]))
  = None.
Proof.
  apply (loop_goes_on sample_flags (fun _ => None) initial_loop_state);
    [reflexivity|].
  repeat (constructor;
          [split; [reflexivity | first [left; reflexivity | right; reflexivity]]|]).
  constructor.
Defined.

(** X20: an enumeration error ends the program: once the supervisor has
    recorded it, the next iteration of the main loop, whenever it comes,
    returns that error without sending anything, provided it is not
    [RetryError]. *)
Theorem enumeration_fault_ends_run (cfg : flags) (start : string -> option error)
    (sent : option error) (st : loop_state)
    (p : platform) (e : error) (w : world) (rest : list action) :
  scanning w = true -> ticker_stopped (controller w) = false ->
  device (controller w) = None -> err (controller w) = None ->
  Devices p = inr e -> e <> RetryError ->
  main_iteration cfg start sent st (run rest (tick p w))
  = Some (Return e [], run rest (tick p w)).
Proof.
  intros Hs Ht Hd He Hp Hne.
  assert (Hf : faulted e (tick p w)).
  { unfold tick. rewrite Hs, Ht, Hd, He, Hp. repeat split. }
  destruct (run_faulted e rest _ Hf) as [(Hd2 & He2 & _) _].
  unfold main_iteration, GetReport. rewrite Hd2, He2.
  unfold loop_body. destruct e; [contradiction | reflexivity ..].
Qed.

Lemma enumeration_fault_ends_run_witness :
  main_iteration sample_flags (fun _ => None) None initial_loop_state
    (run [Read; Tick plugged_in]
       (tick (enumeration_broken (PlatformError 5)) NewStadiaController))
  = Some (Return (PlatformError 5) [],
          run [Read; Tick plugged_in]
            (tick (enumeration_broken (PlatformError 5)) NewStadiaController)).
Proof.
  apply enumeration_fault_ends_run; reflexivity || discriminate.
Defined.

(** ** Properties of the virtual bus errors *)

Ltac vigem_consts :=
  unfold VIGEM_ERROR_NONE, VIGEM_ERROR_BUS_NOT_FOUND, VIGEM_ERROR_NO_FREE_SLOT,
    VIGEM_ERROR_INVALID_TARGET, VIGEM_ERROR_REMOVAL_FAILED,
    VIGEM_ERROR_ALREADY_CONNECTED, VIGEM_ERROR_TARGET_UNINITIALIZED,
    VIGEM_ERROR_TARGET_NOT_PLUGGED_IN, VIGEM_ERROR_BUS_VERSION_MISMATCH,
    VIGEM_ERROR_BUS_ACCESS_FAILED, VIGEM_ERROR_CALLBACK_ALREADY_REGISTERED,
    VIGEM_ERROR_CALLBACK_NOT_FOUND, VIGEM_ERROR_BUS_ALREADY_CONNECTED,
    VIGEM_ERROR_BUS_INVALID_HANDLE, VIGEM_ERROR_XUSB_USERINDEX_OUT_OF_RANGE in *.

(** The message of a code, with the code it belongs to when it is one of
    the fourteen the library documents. *)
Lemma VigemError_Error_cases (err : VigemError) :
  (VigemError_Error err = "invalid code returned by ViGEm"%string
   /\ ~ (0xE0000001 <= code err <= 0xE0000009 \/ 0xE0000010 <= code err <= 0xE0000014))
  \/ (VigemError_Error err <> "invalid code returned by ViGEm"%string
      /\ (0xE0000001 <= code err <= 0xE0000009 \/ 0xE0000010 <= code err <= 0xE0000014)
      /\ forall err', VigemError_Error err' = VigemError_Error err ->
                      code err' = code err).
Proof.
  unfold VigemError_Error. vigem_consts.
  repeat match goal with
         | |- context [code err =? ?c] =>
             destruct (Z.eqb_spec (code err) c) as [->|?];
               [right; split; [discriminate|]; split; [lia|];
                intros err';
                repeat match goal with
                       | |- context [code err' =? ?c'] =>
                           destruct (Z.eqb_spec (code err') c') as [->|?];
                             [first [reflexivity | discriminate]|]
                       end; discriminate|]
         end.
  left. split; [reflexivity | lia].
Qed.

(** X21: [NewVigemError] gives no error for the code [0x20000000] only (the
    code 0 is an error). The fourteen codes [0xE0000001 .. 0xE0000009] and
    [0xE0000010 .. 0xE0000014] each have a message of their own, which
    identifies the code; every other code, the six between the two ranges
    among them, reads "invalid code returned by ViGEm"%string. *)
Theorem VigemError_messages (rawCode : Z) (err : VigemError) :
  (NewVigemError rawCode = None <-> rawCode = 0x20000000)
  /\ (rawCode <> 0x20000000 -> NewVigemError rawCode = Some {| code := rawCode |})
  /\ (VigemError_Error err = "invalid code returned by ViGEm"%string
      <-> ~ (0xE0000001 <= code err <= 0xE0000009
             \/ 0xE0000010 <= code err <= 0xE0000014))
  /\ (forall err',
        VigemError_Error err' = VigemError_Error err ->
        VigemError_Error err <> "invalid code returned by ViGEm"%string ->
        code err' = code err).
Proof.
  split; [|split; [|split]].
  - unfold NewVigemError, VIGEM_ERROR_NONE.
    destruct (Z.eqb_spec rawCode 0x20000000); split; congruence.
  - intros Hne. unfold NewVigemError, VIGEM_ERROR_NONE.
    destruct (Z.eqb_spec rawCode 0x20000000); [contradiction | reflexivity].
  - destruct (VigemError_Error_cases err) as [[H1 H2]|(H1 & H2 & _)]; split; tauto.
  - intros err' Heq Hne.
    destruct (VigemError_Error_cases err) as [[H1 _]|(_ & _ & H3)];
      [contradiction | apply H3, Heq].
Qed.

Lemma VigemError_messages_witness :
  NewVigemError 0 = Some {| code := 0 |}
  /\ VigemError_Error {| code := 0xE000000A |} = "invalid code returned by ViGEm"%string.
Proof.
  destruct (VigemError_messages 0 {| code := 0xE000000A |}) as (_ & H1 & H2 & _).
  split; [apply H1; discriminate | apply H2; cbn; lia].
Defined.

Lemma call_failed_None a :
  call_failed a = None <-> lastErr a = 0 /\ libErr a = 0x20000000.
Proof.
  unfold call_failed, NewVigemError, VIGEM_ERROR_NONE.
  destruct (Z.eqb_spec (lastErr a) 0) as [H0|H0]; cbn [negb].
  - destruct (Z.eqb_spec (libErr a) 0x20000000); split;
      [auto | auto | discriminate | intros [_ ?]; contradiction].
  - split; [discriminate | intros [? _]; contradiction].
Qed.


